(** * German POS API: the /tag orchestration and the two output normalizers

    Shallow embedding of [german_pos_api.py].  The two NLP engines (spaCy,
    Stanza) are external: a loaded pipeline is a function from the request
    text to either an exception or an engine-native document, and the
    documents are plain records holding exactly the attributes the source
    reads.  Python exceptions are values of [exn]; code that may raise returns
    [result]; the route [tag] additionally records, in order, every pipeline
    call and every [print] it performs. *)

From stdpp Require Import base option list strings gmap fin_maps.
From Stdlib Require Import Ascii String NArith Lia.

Local Open Scope string_scope.

(** ** Python [str]

    A character is one [ascii] value, read as a code point in U+0000..U+00FF
    (this covers the German letters; larger code points are outside the
    model). *)

(** [c.isspace()] for one character: U+0009..U+000D, U+001C..U+0020, U+0085
    and U+00A0. *)
Definition isspace (c : ascii) : bool :=
  let n := N_of_ascii c in
  ((9 <=? n) && (n <=? 13) || (28 <=? n) && (n <=? 32)
   || (n =? 133) || (n =? 160))%N.

(** [bool(s)] for a string: non-empty. *)
Definition truthy (s : string) : bool :=
  match s with "" => false | String _ _ => true end.

(** [a or b] on strings. *)
Definition py_or (a b : string) : string := if truthy a then a else b.

Fixpoint lstrip (s : string) : string :=
  match s with
  | "" => ""
  | String c r => if isspace c then lstrip r else s
  end.

Fixpoint rstrip (s : string) : string :=
  match s with
  | "" => ""
  | String c r =>
      let r' := rstrip r in
      if isspace c && negb (truthy r') then "" else String c r'
  end.

(** [s.strip()] *)
Definition strip (s : string) : string := rstrip (lstrip s).

(** [c in s] for a one-character [c]. *)
Fixpoint contains (c : ascii) (s : string) : bool :=
  match s with
  | "" => false
  | String a r => if Ascii.eqb a c then true else contains c r
  end.

(** [s.split(sep)] for a one-character separator: never the empty list,
    [len(result) = 1 + s.count(sep)]. *)
Fixpoint split (sep : ascii) (s : string) : list string :=
  match s with
  | "" => [""]
  | String a r =>
      if Ascii.eqb a sep then "" :: split sep r
      else match split sep r with
           | [] => [String a ""]
           | h :: t => String a h :: t
           end
  end.

(** ** Exceptions and fallible code *)

Inductive exn : Type :=
  | Exception (msg : string)
  | IndexError (msg : string)
  | HTTPException (status_code : nat) (detail : string).

Inductive result (A : Type) : Type :=
  | Ok (a : A)
  | Raise (e : exn).
Arguments Ok {A} a.
Arguments Raise {A} e.

#[global] Instance result_ret : MRet result := λ A a, Ok a.
#[global] Instance result_bind : MBind result := λ A B f m,
  match m with Ok a => f a | Raise e => Raise e end.

(** [try: body except Exception: handler] *)
Definition try_except {A} (body : result A) (handler : exn → result A)
  : result A :=
  match body with Ok a => Ok a | Raise e => handler e end.

(** [l[i]] *)
Definition getitem {A} (l : list A) (i : nat) : result A :=
  match l !! i with
  | Some x => Ok x
  | None => Raise (IndexError "list index out of range")
  end.

(** ** Engine-native documents *)

Module spacy.
(** A spaCy token: the attributes [is_space], [text], [pos_], [lemma_] and
    the outcome of [morph.to_dict()].  The source reads [is_space] as the
    engine's flag, so it is a field here; what the tokenizer guarantees of it
    ([is_space] is [text.isspace()], no token of empty text) is stated
    separately as [engine_token]. *)
Record Token : Type := mkToken {
  is_space : bool;
  text : string;
  pos_ : string;
  lemma_ : string;
  morph_to_dict : result (gmap string string)
}.
(** [doc.sents]: the sentences, each a sequence of tokens.  A document is
    one whose sentence boundaries are set; what [tag] does when the
    normalization of a document raises is stated over the whole attempt
    (call, then normalization), see [spacy_attempt]. *)
Record Doc : Type := mkDoc { sents : list (list Token) }.
End spacy.

Module stanza.
(** A Stanza word: [text], [upos], [lemma] (strings, as the loaded
    processors [tokenize,pos,lemma,mwt] set them) and [feats], which is
    [None] or a string of [Key=Value] pairs joined by a bar. *)
Record Word : Type := mkWord {
  text : string;
  upos : string;
  lemma : string;
  feats : option string
}.
Record Sentence : Type := mkSentence { words : list Word }.
Record Document : Type := mkDocument { sentences : list Sentence }.
End stanza.

(** ** The unified response *)

Module out.
(** [{"text": .., "pos": .., "lemma": .., "morph": ..}]; the value [None]
    of [lemma] is Python's [None], serialized as JSON [null]. *)
Record Token : Type := mkToken {
  text : string;
  pos : string;
  lemma : option string;
  morph : gmap string string
}.
(** [{"tokens": toks}] *)
Record Sentence : Type := mkSentence { tokens : list Token }.
(** [{"model": .., "transformer": .., "sentences": ..}] *)
Record Response : Type := mkResponse {
  model : string;
  transformer : bool;
  sentences : list Sentence
}.
End out.

(** ** Utility functions *)

(** [{k: v for k, v in d.items()}] *)
Definition dict_items_copy (d : gmap string string) : gmap string string :=
  foldl (λ acc kv, <[kv.1 := kv.2]> acc) ∅ (map_to_list d).

(** The morph of one spaCy token (source lines 73-78). *)
Definition spacy_morph (include_morph : bool) (t : spacy.Token)
  : result (gmap string string) :=
  if include_morph then
    try_except (d ← spacy.morph_to_dict t; mret (dict_items_copy d))
               (λ _, mret ∅)
  else mret ∅.

(** The inner loop [for t in sent], with [toks] the list built so far. *)
Fixpoint spacy_sent_loop (include_lemma include_morph : bool)
    (sent : list spacy.Token) (toks : list out.Token)
  : result (list out.Token) :=
  match sent with
  | [] => mret toks
  | t :: rest =>
      if spacy.is_space t then
        spacy_sent_loop include_lemma include_morph rest toks
      else
        morph ← spacy_morph include_morph t;
        spacy_sent_loop include_lemma include_morph rest
          (toks ++ [ {| out.text := spacy.text t;
                        out.pos := spacy.pos_ t;
                        out.lemma := if include_lemma
                                     then Some (spacy.lemma_ t) else None;
                        out.morph := morph |} ])
  end.

(** The outer loop [for sent in doc.sents]. *)
Fixpoint spacy_doc_loop (include_lemma include_morph : bool)
    (sents : list (list spacy.Token)) (sentences : list out.Sentence)
  : result (list out.Sentence) :=
  match sents with
  | [] => mret sentences
  | sent :: rest =>
      toks ← spacy_sent_loop include_lemma include_morph sent [];
      spacy_doc_loop include_lemma include_morph rest
        (sentences ++ [ {| out.tokens := toks |} ])
  end.

Definition spacy_to_tokens (doc : spacy.Doc)
    (include_lemma include_morph : bool) : result (list out.Sentence) :=
  spacy_doc_loop include_lemma include_morph (spacy.sents doc) [].

(** The dict comprehension of source line 97 over the pairs [kvs], with
    [acc] the dict built so far: for each [kv] with ["=" in kv], evaluate
    [kv.split("=")[0]] and [kv.split("=")[1]] and store the entry. *)
Fixpoint feats_comprehension (kvs : list string) (acc : gmap string string)
  : result (gmap string string) :=
  match kvs with
  | [] => mret acc
  | kv :: rest =>
      if contains "=" kv then
        k ← getitem (split "=" kv) 0;
        v ← getitem (split "=" kv) 1;
        feats_comprehension rest (<[k := v]> acc)
      else feats_comprehension rest acc
  end.

(** The morph of one Stanza word (source lines 95-97); [w.feats] is falsy
    when it is [None] or the empty string. *)
Definition stanza_feats (include_morph : bool) (w : stanza.Word)
  : result (gmap string string) :=
  if include_morph then
    match stanza.feats w with
    | Some fs =>
        if truthy fs then feats_comprehension (split "|" fs) ∅ else mret ∅
    | None => mret ∅
    end
  else mret ∅.

Fixpoint stanza_words_loop (include_lemma include_morph : bool)
    (ws : list stanza.Word) (toks : list out.Token)
  : result (list out.Token) :=
  match ws with
  | [] => mret toks
  | w :: rest =>
      if negb (truthy (strip (stanza.text w))) then
        stanza_words_loop include_lemma include_morph rest toks
      else
        feats ← stanza_feats include_morph w;
        stanza_words_loop include_lemma include_morph rest
          (toks ++ [ {| out.text := stanza.text w;
                        out.pos := stanza.upos w;
                        out.lemma := if include_lemma
                                     then Some (stanza.lemma w) else None;
                        out.morph := feats |} ])
  end.

Fixpoint stanza_doc_loop (include_lemma include_morph : bool)
    (ss : list stanza.Sentence) (sentences : list out.Sentence)
  : result (list out.Sentence) :=
  match ss with
  | [] => mret sentences
  | s :: rest =>
      toks ← stanza_words_loop include_lemma include_morph (stanza.words s) [];
      stanza_doc_loop include_lemma include_morph rest
        (sentences ++ [ {| out.tokens := toks |} ])
  end.

Definition stanza_to_tokens (doc : stanza.Document)
    (include_lemma include_morph : bool) : result (list out.Sentence) :=
  stanza_doc_loop include_lemma include_morph (stanza.sentences doc) [].

(** ** Routes

    A route runs in [Py]: its outcome (a value or a raised exception)
    together with the pipeline calls and prints it performed, in order. *)

Inductive event : Type :=
  | CallSpacy (text : string)              (* [nlp_spacy(text)] *)
  | CallStanza (text : string)             (* [nlp_stanza(text)] *)
  | Print (prefix : string) (e : exn).     (* [print(f"<prefix>{e}")] *)

Definition Py (A : Type) : Type := (result A * list event)%type.

#[global] Instance Py_ret : MRet Py := λ A a, (Ok a, []).
#[global] Instance Py_bind : MBind Py := λ A B f m,
  match m with
  | (Ok a, tr) => let '(r, tr') := f a in (r, (tr ++ tr')%list)
  | (Raise e, tr) => (Raise e, tr)
  end.

Definition py_raise {A} (e : exn) : Py A := (Raise e, []).
Definition py_lift {A} (r : result A) : Py A := (r, []).
Definition py_emit (ev : event) : Py unit := (Ok tt, [ev]).

(** [try: body except Exception as e: handler e] *)
Definition py_try {A} (body : Py A) (handler : exn → Py A) : Py A :=
  match body with
  | (Ok a, tr) => (Ok a, tr)
  | (Raise e, tr) => let '(r, tr') := handler e in (r, (tr ++ tr')%list)
  end.

(** Calling a loaded pipeline on a text. *)
Definition py_call {D} (ev : string → event) (nlp : string → result D)
    (text : string) : Py D := (nlp text, [ev text]).

Record TagRequest : Type := mkTagRequest {
  text : string;
  splitSentences : bool;
  includeLemma : bool;
  includeMorph : bool
}.

Definition STANZA_LANG : string := "de".

Section routes.
(** The module-level state, fixed once the module is loaded: the
    configured model name and the two optional pipelines. *)
Variable SPACY_MODEL : string.
Variable nlp_spacy : option (string → result spacy.Doc).
Variable nlp_stanza : option (string → result stanza.Document).

(** The first [if nlp_spacy:] block; [Some resp] is its [return resp],
    [None] is falling through to the next statement. *)
Definition try_spacy (text : string) (req : TagRequest)
  : Py (option out.Response) :=
  match nlp_spacy with
  | Some nlp =>
      py_try
        (doc ← py_call CallSpacy nlp text;
         sents ← py_lift
           (spacy_to_tokens doc (includeLemma req) (includeMorph req));
         mret (Some {| out.model := SPACY_MODEL;
                       out.transformer := false;
                       out.sentences := sents |}))
        (λ e, _ ← py_emit (Print "[ERR] spaCy failed: " e); mret None)
  | None => mret None
  end.

(** The [if nlp_stanza:] block. *)
Definition try_stanza (text : string) (req : TagRequest)
  : Py (option out.Response) :=
  match nlp_stanza with
  | Some nlp =>
      py_try
        (doc ← py_call CallStanza nlp text;
         sents ← py_lift
           (stanza_to_tokens doc (includeLemma req) (includeMorph req));
         mret (Some {| out.model := "stanza-" +:+ STANZA_LANG;
                       out.transformer := true;
                       out.sentences := sents |}))
        (λ e, _ ← py_emit (Print "[ERR] Stanza failed: " e); mret None)
  | None => mret None
  end.

Definition tag (req : TagRequest) : Py out.Response :=
  let text := strip (py_or (text req) "") in
  if negb (truthy text) then
    py_raise (HTTPException 400 "Empty text")
  else
    r ← try_spacy text req;
    match r with
    | Some resp => mret resp
    | None =>
        r ← try_stanza text req;
        match r with
        | Some resp => mret resp
        | None =>
            py_raise (HTTPException 503 "No tagging provider available")
        end
    end.

(** [GET /health] *)
Definition health : bool * (bool * bool) :=
  (bool_decide (is_Some nlp_spacy) || bool_decide (is_Some nlp_stanza),
   (bool_decide (is_Some nlp_spacy), bool_decide (is_Some nlp_stanza))).
End routes.

(** ** Reference definitions used in the statements *)

(** Every character of [s] is whitespace (in particular [s] may be empty). *)
Fixpoint blank (s : string) : bool :=
  match s with
  | "" => true
  | String c r => isspace c && blank r
  end.

(** The part of [s] before the first [sep] (all of [s] if there is none). *)
Fixpoint before (sep : ascii) (s : string) : string :=
  match s with
  | "" => ""
  | String a r => if Ascii.eqb a sep then "" else String a (before sep r)
  end.

(** The part of [s] after the first [sep] (empty if there is none). *)
Fixpoint after (sep : ascii) (s : string) : string :=
  match s with
  | "" => ""
  | String a r => if Ascii.eqb a sep then r else after sep r
  end.

(** Number of occurrences of [c] in [s]. *)
Fixpoint count_char (c : ascii) (s : string) : nat :=
  match s with
  | "" => 0
  | String a r => (if Ascii.eqb a c then 1 else 0) + count_char c r
  end.

(** The mapping obtained from the pairs [kvs] that contain ["="], storing
    them from left to right under the text before their first ["="], with
    [value kv] as the value: a later pair overwrites an earlier one with the
    same key. *)
Definition store_pairs (value : string → string) (kvs : list string)
  : gmap string string :=
  foldl (λ acc kv, <[before "=" kv := value kv]> acc) ∅
        (List.filter (contains "=") kvs).

(** What the source computes from a feature string: the value of a pair is
    the text between its first and its second ["="] (up to the end of the
    pair when there is no second one). *)
Definition feats_two_pieces (fs : string) : gmap string string :=
  store_pairs (λ kv, before "=" (after "=" kv)) (split "|" fs).

(** The reading of the specification: each pair is split only on its first
    ["="], so the value is everything after it. *)
Definition feats_first_eq (fs : string) : gmap string string :=
  store_pairs (after "=") (split "|" fs).

(** The unified token of a spaCy token that is kept. *)
Definition spacy_token (include_lemma include_morph : bool) (t : spacy.Token)
  : out.Token :=
  {| out.text := spacy.text t;
     out.pos := spacy.pos_ t;
     out.lemma := if include_lemma then Some (spacy.lemma_ t) else None;
     out.morph := if include_morph
                  then match spacy.morph_to_dict t with
                       | Ok d => d
                       | Raise _ => ∅
                       end
                  else ∅ |}.

Definition spacy_sentence (include_lemma include_morph : bool)
    (sent : list spacy.Token) : out.Sentence :=
  {| out.tokens := map (spacy_token include_lemma include_morph)
                     (List.filter (λ t, negb (spacy.is_space t)) sent) |}.

Definition stanza_morph (include_morph : bool) (w : stanza.Word)
  : gmap string string :=
  if include_morph then
    match stanza.feats w with
    | Some fs => if truthy fs then feats_two_pieces fs else ∅
    | None => ∅
    end
  else ∅.

(** The unified token of a Stanza word that is kept. *)
Definition stanza_token (include_lemma include_morph : bool) (w : stanza.Word)
  : out.Token :=
  {| out.text := stanza.text w;
     out.pos := stanza.upos w;
     out.lemma := if include_lemma then Some (stanza.lemma w) else None;
     out.morph := stanza_morph include_morph w |}.

Definition stanza_sentence (include_lemma include_morph : bool)
    (s : stanza.Sentence) : out.Sentence :=
  {| out.tokens := map (stanza_token include_lemma include_morph)
                     (List.filter (λ w, truthy (strip (stanza.text w)))
                                  (stanza.words s)) |}.

(** All tokens of a list of sentences satisfy [P]. *)
Definition all_tokens (P : out.Token → Prop) (sents : list out.Sentence)
  : Prop :=
  Forall (λ s, Forall P (out.tokens s)) sents.

Definition is_spacy_call (ev : event) : bool :=
  match ev with CallSpacy _ => true | _ => false end.

Definition is_stanza_call (ev : event) : bool :=
  match ev with CallStanza _ => true | _ => false end.

(** The primary pipeline is unavailable, or calling it on [text] and
    normalizing its document raises. *)
Definition primary_fails (nlp_spacy : option (string → result spacy.Doc))
    (text : string) (req : TagRequest) : Prop :=
  match nlp_spacy with
  | None => True
  | Some nlp =>
      ∃ e, (doc ← nlp text;
            spacy_to_tokens doc (includeLemma req) (includeMorph req))
           = Raise e
  end.

Definition secondary_fails
    (nlp_stanza : option (string → result stanza.Document))
    (text : string) (req : TagRequest) : Prop :=
  match nlp_stanza with
  | None => True
  | Some nlp =>
      ∃ e, (doc ← nlp text;
            stanza_to_tokens doc (includeLemma req) (includeMorph req))
           = Raise e
  end.

(** ** Example data *)

Definition ex_morph : gmap string string :=
  <["Number" := "Sing"]> (<["Case" := "Nom"]> ∅).

(** "Der  Hund bellt." as the primary engine reports it: one sentence with
    a whitespace token, and one token whose [morph.to_dict()] raises. *)
Definition ex_spacy_doc : spacy.Doc :=
  spacy.mkDoc
    [[spacy.mkToken false "Der" "DET" "der" (Ok ex_morph);
      spacy.mkToken true " " "SPACE" " " (Ok ∅);
      spacy.mkToken false "Hund" "NOUN" "Hund"
        (Raise (Exception "morph unavailable"));
      spacy.mkToken false "bellt" "VERB" "bellen" (Ok ∅);
      spacy.mkToken false "." "PUNCT" "." (Ok ∅)];
     [spacy.mkToken true "  " "SPACE" "  " (Ok ∅)]].

Definition ex_word_two_eq : stanza.Word :=
  stanza.mkWord "x" "X" "x" (Some "K=a=b").

Definition ex_stanza_doc : stanza.Document :=
  stanza.mkDocument
    [stanza.mkSentence
       [stanza.mkWord "Der" "DET" "der"
          (Some "Case=Nom|Definite=Def|Gender=Masc|junk|Case=Acc");
        stanza.mkWord " " "X" " " None;
        stanza.mkWord "Hund" "NOUN" "Hund" (Some "");
        stanza.mkWord "." "PUNCT" "." None];
     stanza.mkSentence [stanza.mkWord "  " "X" "  " None]].

Definition ex_spacy_ok : string → result spacy.Doc := λ _, Ok ex_spacy_doc.
Definition ex_spacy_raise : string → result spacy.Doc :=
  λ _, Raise (Exception "boom").
Definition ex_stanza_ok : string → result stanza.Document :=
  λ _, Ok ex_stanza_doc.
Definition ex_stanza_raise : string → result stanza.Document :=
  λ _, Raise (Exception "bang").

Definition ex_req : TagRequest :=
  mkTagRequest "  Der  Hund bellt. " true true true.
Definition ex_req_plain : TagRequest :=
  mkTagRequest "Der  Hund bellt." true false false.
Definition ex_req_blank : TagRequest := mkTagRequest "   " true true true.

(** ** Module load (source lines 32-54)

    The environment and the loaders of the two libraries are external: the
    process environment is a finite map, [spacy.load] takes the model name,
    [stanza.download] and [stanza.Pipeline] take the language and the
    processor list. *)

(** [os.getenv(key, default)] *)
Definition getenv (environ : gmap string string) (key default : string)
  : string :=
  match environ !! key with
  | Some v => v
  | None => default
  end.

Definition STANZA_PROCESSORS : string := "tokenize,pos,lemma,mwt".

(** The three module-level names the routes read. *)
Record Loaded : Type := mkLoaded {
  ld_SPACY_MODEL : string;
  ld_nlp_spacy : option (string → result spacy.Doc);
  ld_nlp_stanza : option (string → result stanza.Document)
}.

Section load.
Variable environ : gmap string string.
Variable spacy_load : string → result (string → result spacy.Doc).
Variable stanza_download : string → string → result unit.
Variable stanza_Pipeline :
  string → string → result (string → result stanza.Document).

(** Lines 33-38: [nlp_spacy] stays [None] when [spacy.load] raises. *)
Definition load_spacy (SPACY_MODEL : string)
  : Py (option (string → result spacy.Doc)) :=
  py_try
    (nlp ← py_lift (spacy_load SPACY_MODEL); mret (Some nlp))
    (λ e, _ ← py_emit
            (Print ("[WARN] spaCy model '" +:+ SPACY_MODEL
                    +:+ "' not loaded: ") e);
          mret None).

(** Lines 44-54: the download and the construction share one [try]. *)
Definition load_stanza : Py (option (string → result stanza.Document)) :=
  py_try
    (_ ← py_lift (stanza_download STANZA_LANG STANZA_PROCESSORS);
     nlp ← py_lift (stanza_Pipeline STANZA_LANG STANZA_PROCESSORS);
     mret (Some nlp))
    (λ e, _ ← py_emit (Print "[WARN] Stanza model not loaded: " e);
          mret None).

Definition load_module : Py Loaded :=
  let SPACY_MODEL := getenv environ "SPACY_MODEL" "de_core_news_lg" in
  nlp_spacy ← load_spacy SPACY_MODEL;
  nlp_stanza ← load_stanza;
  mret {| ld_SPACY_MODEL := SPACY_MODEL;
          ld_nlp_spacy := nlp_spacy;
          ld_nlp_stanza := nlp_stanza |}.
End load.

(** ** Further reference definitions *)

Definition is_print (ev : event) : bool :=
  match ev with Print _ _ => true | _ => false end.

(** The first character of [s] is whitespace. *)
Definition starts_with_space (s : string) : bool :=
  match s with
  | "" => false
  | String c _ => isspace c
  end.

(** The last character of [s] is whitespace. *)
Fixpoint ends_with_space (s : string) : bool :=
  match s with
  | "" => false
  | String c r => if truthy r then ends_with_space r else isspace c
  end.

(** A token with its [lemma] and [morph] erased unless the flag is set. *)
Definition mask_token (il im : bool) (tok : out.Token) : out.Token :=
  {| out.text := out.text tok;
     out.pos := out.pos tok;
     out.lemma := if il then out.lemma tok else None;
     out.morph := if im then out.morph tok else ∅ |}.

Definition mask_sentence (il im : bool) (s : out.Sentence) : out.Sentence :=
  {| out.tokens := map (mask_token il im) (out.tokens s) |}.

(** The feature string of a list of pairs: ["|".join(k + "=" + v)]. *)
Fixpoint join_feats (pairs : list (string * string)) : string :=
  match pairs with
  | [] => ""
  | kv :: rest =>
      match rest with
      | [] => kv.1 +:+ "=" +:+ kv.2
      | _ :: _ => kv.1 +:+ "=" +:+ kv.2 +:+ "|" +:+ join_feats rest
      end
  end.

(** Neither ["="] nor ["|"] occurs in [s]. *)
Definition no_separator (s : string) : bool :=
  negb (contains "=" s) && negb (contains "|" s).

(** The outcome of the secondary tier on the trimmed text [t], after the
    events [pre] of the primary tier. *)
Definition stanza_tier (nlp_stanza : option (string → result stanza.Document))
    (t : string) (il im : bool) (pre : list event) : Py out.Response :=
  match nlp_stanza with
  | None =>
      (Raise (HTTPException 503 "No tagging provider available"), pre)
  | Some nlp =>
      match nlp t with
      | Ok doc =>
          (Ok {| out.model := "stanza-de";
                 out.transformer := true;
                 out.sentences :=
                   map (stanza_sentence il im) (stanza.sentences doc) |},
           (pre ++ [CallStanza t])%list)
      | Raise e =>
          (Raise (HTTPException 503 "No tagging provider available"),
           (pre ++ [CallStanza t; Print "[ERR] Stanza failed: " e])%list)
      end
  end.

(** The outcome of the two tiers on the trimmed text [t], by the results of
    the pipeline calls alone. *)
Definition two_tiers (SPACY_MODEL : string)
    (nlp_spacy : option (string → result spacy.Doc))
    (nlp_stanza : option (string → result stanza.Document))
    (t : string) (il im : bool) : Py out.Response :=
  match nlp_spacy with
  | None => stanza_tier nlp_stanza t il im []
  | Some nlp =>
      match nlp t with
      | Ok doc =>
          (Ok {| out.model := SPACY_MODEL;
                 out.transformer := false;
                 out.sentences :=
                   map (spacy_sentence il im) (spacy.sents doc) |},
           [CallSpacy t])
      | Raise e =>
          stanza_tier nlp_stanza t il im
            [CallSpacy t; Print "[ERR] spaCy failed: " e]
      end
  end.

(** [s.isspace()]: non-empty and whitespace only. *)
Definition str_isspace (s : string) : bool := truthy s && blank s.

(** What the spaCy tokenizer guarantees of a token it emits: its text is
    not empty, and its [is_space] flag is [text.isspace()]. *)
Definition engine_token (t : spacy.Token) : Prop :=
  truthy (spacy.text t) = true
  ∧ spacy.is_space t = str_isspace (spacy.text t).

(** A document all of whose tokens are tokenizer output. *)
Definition engine_doc (doc : spacy.Doc) : Prop :=
  Forall (Forall engine_token) (spacy.sents doc).

(** A primary pipeline that returns tokenizer output only. *)
Definition engine_pipeline
    (nlp_spacy : option (string → result spacy.Doc)) : Prop :=
  ∀ nlp t doc, nlp_spacy = Some nlp → nlp t = Ok doc → engine_doc doc.

(** The primary attempt of [tag] on the trimmed text [t] (source lines
    125-128): [None] when the pipeline is not loaded, otherwise the outcome
    of the call followed by the normalization of its document. *)
Definition spacy_attempt (nlp_spacy : option (string → result spacy.Doc))
    (t : string) (req : TagRequest) : option (result (list out.Sentence)) :=
  match nlp_spacy with
  | None => None
  | Some nlp =>
      Some (doc ← nlp t;
            spacy_to_tokens doc (includeLemma req) (includeMorph req))
  end.

(** The secondary attempt (source lines 134-137). *)
Definition stanza_attempt
    (nlp_stanza : option (string → result stanza.Document))
    (t : string) (req : TagRequest) : option (result (list out.Sentence)) :=
  match nlp_stanza with
  | None => None
  | Some nlp =>
      Some (doc ← nlp t;
            stanza_to_tokens doc (includeLemma req) (includeMorph req))
  end.

(** The outcome of the secondary attempt [a2], after the events [pre]. *)
Definition second_attempt (t : string)
    (a2 : option (result (list out.Sentence))) (pre : list event)
  : Py out.Response :=
  match a2 with
  | None =>
      (Raise (HTTPException 503 "No tagging provider available"), pre)
  | Some (Ok sents) =>
      (Ok {| out.model := "stanza-de";
             out.transformer := true;
             out.sentences := sents |},
       (pre ++ [CallStanza t])%list)
  | Some (Raise e) =>
      (Raise (HTTPException 503 "No tagging provider available"),
       (pre ++ [CallStanza t; Print "[ERR] Stanza failed: " e])%list)
  end.

(** The outcome of [tag] on the trimmed text [t] by the outcomes [a1] and
    [a2] of the two attempts, whichever step of an attempt raised. *)
Definition by_attempts (SPACY_MODEL : string) (t : string)
    (a1 a2 : option (result (list out.Sentence))) : Py out.Response :=
  match a1 with
  | None => second_attempt t a2 []
  | Some (Ok sents) =>
      (Ok {| out.model := SPACY_MODEL;
             out.transformer := false;
             out.sentences := sents |},
       [CallSpacy t])
  | Some (Raise e) =>
      second_attempt t a2 [CallSpacy t; Print "[ERR] spaCy failed: " e]
  end.

(** The computation returned a value. *)
Definition is_Ok {A} (r : result A) : bool :=
  match r with Ok _ => true | Raise _ => false end.

Definition ex_environ : gmap string string :=
  <["SPACY_MODEL" := "de_core_news_md"]> ∅.
Definition ex_spacy_load_ok
  : string → result (string → result spacy.Doc) := λ _, Ok ex_spacy_ok.
Definition ex_spacy_load_raise
  : string → result (string → result spacy.Doc) :=
  λ _, Raise (Exception "model not found").
Definition ex_download_ok : string → string → result unit := λ _ _, Ok tt.
Definition ex_download_raise : string → string → result unit :=
  λ _ _, Raise (Exception "no network").
Definition ex_Pipeline_ok
  : string → string → result (string → result stanza.Document) :=
  λ _ _, Ok ex_stanza_ok.
Definition ex_req_padded : TagRequest :=
  mkTagRequest "Der  Hund bellt.   " false true true.

(** ** Strings *)

Lemma py_or_empty (s : string) : py_or s "" = s.
Proof. by destruct s. Qed.

Lemma truthy_false (s : string) : truthy s = false ↔ s = "".
Proof. by destruct s. Qed.

Lemma blank_lstrip (s : string) : blank (lstrip s) = blank s.
Proof.
  induction s as [|c r IH]; simpl; [done|].
  destruct (isspace c) eqn:Hc; simpl; [exact IH|].
  by rewrite Hc.
Qed.

Lemma rstrip_empty_iff (s : string) :
  truthy (rstrip s) = false ↔ blank s = true.
Proof.
  induction s as [|c r IH]; simpl; [done|].
  destruct (isspace c); simpl; [|done].
  destruct (truthy (rstrip r)) eqn:Hr; simpl.
  - split; [done|]. intros Hb. apply IH in Hb. done.
  - split; [|done]. intros _. by apply IH.
Qed.

(** [strip] leaves nothing exactly when the string is whitespace only. *)
Lemma strip_empty_iff (s : string) :
  truthy (strip s) = false ↔ blank s = true.
Proof. unfold strip. by rewrite rstrip_empty_iff, blank_lstrip. Qed.

Lemma split_before_after (sep : ascii) (s : string) :
  split sep s =
  before sep s :: (if contains sep s then split sep (after sep s) else []).
Proof.
  induction s as [|a r IH]; simpl; [done|].
  destruct (Ascii.eqb a sep); [done|].
  by rewrite IH.
Qed.

Lemma getitem_split_0 (sep : ascii) (s : string) :
  getitem (split sep s) 0 = Ok (before sep s).
Proof. by rewrite split_before_after. Qed.

Lemma getitem_split_1 (sep : ascii) (s : string) :
  contains sep s = true →
  getitem (split sep s) 1 = Ok (before sep (after sep s)).
Proof.
  intros Hc. rewrite split_before_after, Hc.
  by rewrite (split_before_after sep (after sep s)).
Qed.

Lemma before_no_sep (sep : ascii) (s : string) :
  contains sep s = false → before sep s = s.
Proof.
  induction s as [|a r IH]; simpl; [done|].
  destruct (Ascii.eqb a sep); [done|]. intros H. by rewrite IH.
Qed.

Lemma count_char_after (sep : ascii) (s : string) :
  contains sep s = true → count_char sep s = S (count_char sep (after sep s)).
Proof.
  induction s as [|a r IH]; simpl; [done|].
  destruct (Ascii.eqb a sep); [done|]. exact IH.
Qed.

Lemma count_char_0 (sep : ascii) (s : string) :
  count_char sep s = 0 → contains sep s = false.
Proof.
  induction s as [|a r IH]; simpl; [done|].
  destruct (Ascii.eqb a sep); [done|]. exact IH.
Qed.

(** ** The normalizers as maps over the engine's sentences *)

Lemma foldl_insert_reverse (l : list (string * string)) :
  foldl (λ (acc : gmap string string) kv, <[kv.1 := kv.2]> acc) ∅ l
  = list_to_map (reverse l).
Proof.
  induction l as [|x l IH] using rev_ind; [done|].
  by rewrite foldl_snoc, reverse_snoc, IH.
Qed.

Lemma dict_items_copy_id (d : gmap string string) : dict_items_copy d = d.
Proof.
  unfold dict_items_copy. rewrite foldl_insert_reverse.
  rewrite <- (list_to_map_to_list d) at 2.
  apply list_to_map_proper.
  - rewrite fmap_reverse, reverse_Permutation. apply NoDup_fst_map_to_list.
  - apply reverse_Permutation.
Qed.

Lemma spacy_morph_ok (il im : bool) (t : spacy.Token) :
  spacy_morph im t = Ok (out.morph (spacy_token il im t)).
Proof.
  unfold spacy_morph, spacy_token; simpl.
  destruct im; [|done].
  destruct (spacy.morph_to_dict t) as [d|e]; simpl; [|done].
  by rewrite dict_items_copy_id.
Qed.

Lemma spacy_sent_loop_eq (il im : bool) (sent : list spacy.Token)
    (toks : list out.Token) :
  spacy_sent_loop il im sent toks
  = Ok (toks ++ out.tokens (spacy_sentence il im sent))%list.
Proof.
  revert toks. induction sent as [|t rest IH]; intros toks; simpl.
  - by rewrite app_nil_r.
  - destruct (spacy.is_space t); simpl; [apply IH|].
    rewrite (spacy_morph_ok il im t); simpl.
    rewrite IH, <- app_assoc. done.
Qed.

Lemma spacy_doc_loop_eq (il im : bool) (sents : list (list spacy.Token))
    (sentences : list out.Sentence) :
  spacy_doc_loop il im sents sentences
  = Ok (sentences ++ map (spacy_sentence il im) sents)%list.
Proof.
  revert sentences. induction sents as [|sent rest IH]; intros acc; simpl.
  - by rewrite app_nil_r.
  - rewrite spacy_sent_loop_eq; simpl.
    rewrite IH, <- app_assoc. done.
Qed.

(** The primary normalizer never raises and is a map over [doc.sents]. *)
Lemma spacy_to_tokens_eq (doc : spacy.Doc) (il im : bool) :
  spacy_to_tokens doc il im
  = Ok (map (spacy_sentence il im) (spacy.sents doc)).
Proof. unfold spacy_to_tokens. by rewrite spacy_doc_loop_eq. Qed.

Lemma feats_comprehension_eq (kvs : list string) (acc : gmap string string) :
  feats_comprehension kvs acc
  = Ok (foldl (λ acc kv, <[before "=" kv := before "=" (after "=" kv)]> acc)
              acc (List.filter (contains "=") kvs)).
Proof.
  revert acc. induction kvs as [|kv rest IH]; intros acc; simpl; [done|].
  destruct (contains "=" kv) eqn:Hc; simpl; [|apply IH].
  rewrite getitem_split_0; simpl.
  rewrite (getitem_split_1 _ _ Hc); simpl.
  apply IH.
Qed.

(** Extracting the features of a Stanza word never raises. *)
Lemma stanza_feats_ok (im : bool) (w : stanza.Word) :
  stanza_feats im w = Ok (stanza_morph im w).
Proof.
  unfold stanza_feats, stanza_morph.
  destruct im; [|done].
  destruct (stanza.feats w) as [fs|]; [|done].
  destruct (truthy fs); [|done].
  apply feats_comprehension_eq.
Qed.

Lemma stanza_words_loop_eq (il im : bool) (ws : list stanza.Word)
    (toks : list out.Token) :
  stanza_words_loop il im ws toks
  = Ok (toks ++ out.tokens (stanza_sentence il im (stanza.mkSentence ws)))%list.
Proof.
  revert toks. induction ws as [|w rest IH]; intros toks; simpl.
  - by rewrite app_nil_r.
  - destruct (truthy (strip (stanza.text w))); simpl; [|apply IH].
    rewrite stanza_feats_ok; simpl.
    rewrite IH, <- app_assoc. done.
Qed.

Lemma stanza_doc_loop_eq (il im : bool) (ss : list stanza.Sentence)
    (sentences : list out.Sentence) :
  stanza_doc_loop il im ss sentences
  = Ok (sentences ++ map (stanza_sentence il im) ss)%list.
Proof.
  revert sentences. induction ss as [|s rest IH]; intros acc; simpl.
  - by rewrite app_nil_r.
  - rewrite stanza_words_loop_eq; simpl.
    rewrite IH, <- app_assoc. by destruct s.
Qed.

(** The secondary normalizer never raises and is a map over
    [doc.sentences]. *)
Lemma stanza_to_tokens_eq (doc : stanza.Document) (il im : bool) :
  stanza_to_tokens doc il im
  = Ok (map (stanza_sentence il im) (stanza.sentences doc)).
Proof. unfold stanza_to_tokens. by rewrite stanza_doc_loop_eq. Qed.

(** ** Properties of every kept token *)

Lemma lemma_flag (il : bool) (s : string) :
  (il = false → (if il then Some s else None) = None) ∧
  (is_Some (if il then Some s else None) ↔ il = true).
Proof.
  destruct il; (split; [done|]); split; intros H;
    first [done | by eexists | by destruct H].
Qed.

Lemma all_tokens_spacy (P : out.Token → Prop) (il im : bool)
    (sents : list (list spacy.Token)) :
  (∀ sent t, sent ∈ sents → t ∈ sent → spacy.is_space t = false →
             P (spacy_token il im t)) →
  all_tokens P (map (spacy_sentence il im) sents).
Proof.
  intros HP. apply Forall_forall. intros s Hs.
  apply list_elem_of_In, in_map_iff in Hs as (sent & <- & Hsent).
  apply Forall_forall. intros tok Htok.
  apply list_elem_of_In, in_map_iff in Htok as (t & <- & Ht).
  apply filter_In in Ht as [Ht Hsp].
  apply (HP sent t); [by apply list_elem_of_In..|].
  by destruct (spacy.is_space t).
Qed.

Lemma all_tokens_stanza (P : out.Token → Prop) (il im : bool)
    (ss : list stanza.Sentence) :
  (∀ w, truthy (strip (stanza.text w)) = true → P (stanza_token il im w)) →
  all_tokens P (map (stanza_sentence il im) ss).
Proof.
  intros HP. apply Forall_forall. intros s Hs.
  apply list_elem_of_In, in_map_iff in Hs as (sent & <- & Hsent).
  apply Forall_forall. intros tok Htok.
  apply list_elem_of_In, in_map_iff in Htok as (w & <- & Hw).
  apply filter_In in Hw as [Hw Hsp]. by apply HP.
Qed.

Lemma Forall2_map_intro {A B} (R : A → B → Prop) (f : A → B) (l : list A) :
  (∀ x, x ∈ l → R x (f x)) → Forall2 R l (map f l).
Proof.
  induction l as [|x l IH]; intros H; simpl; constructor.
  - apply H. by left.
  - apply IH. intros y Hy. apply H. by right.
Qed.

Lemma filter_all_false {A} (p q : A → bool) (l : list A) :
  (∀ x, q x = true → p x = false) →
  forallb q l = true → List.filter p l = [].
Proof.
  intros Hpq. induction l as [|x l IH]; simpl; [done|].
  intros [Hx Hl]%andb_prop. by rewrite (Hpq x Hx), IH.
Qed.

Lemma store_pairs_ext (f g : string → string) (kvs : list string) :
  (∀ kv, kv ∈ kvs → contains "=" kv = true → f kv = g kv) →
  store_pairs f kvs = store_pairs g kvs.
Proof.
  unfold store_pairs. generalize (∅ : gmap string string).
  induction kvs as [|kv rest IH]; intros acc H; simpl; [done|].
  destruct (contains "=" kv) eqn:Hc; simpl.
  - rewrite (H kv); [|by left|done]. apply IH.
    intros kv' Hin. apply H. by right.
  - apply IH. intros kv' Hin. apply H. by right.
Qed.

(** ** The route [tag] *)

Section tag_properties.
Variable SPACY_MODEL : string.
Variable nlp_spacy : option (string → result spacy.Doc).
Variable nlp_stanza : option (string → result stanza.Document).

(** The primary block calls the pipeline once; it returns a response when
    call and normalization succeed, and otherwise prints and falls
    through. *)
Lemma try_spacy_eq (t : string) (req : TagRequest) :
  try_spacy SPACY_MODEL nlp_spacy t req =
  match nlp_spacy with
  | None => (Ok None, [])
  | Some nlp =>
      match (doc ← nlp t;
             spacy_to_tokens doc (includeLemma req) (includeMorph req)) with
      | Ok sents =>
          (Ok (Some {| out.model := SPACY_MODEL;
                       out.transformer := false;
                       out.sentences := sents |}), [CallSpacy t])
      | Raise e => (Ok None, [CallSpacy t; Print "[ERR] spaCy failed: " e])
      end
  end.
Proof.
  unfold try_spacy. destruct nlp_spacy as [nlp|]; [|done].
  unfold py_call, py_try, py_lift, py_emit, mbind, Py_bind, mret, Py_ret.
  destruct (nlp t) as [doc|e]; simpl; [|done].
  by destruct (spacy_to_tokens doc _ _).
Qed.

Lemma try_stanza_eq (t : string) (req : TagRequest) :
  try_stanza nlp_stanza t req =
  match nlp_stanza with
  | None => (Ok None, [])
  | Some nlp =>
      match (doc ← nlp t;
             stanza_to_tokens doc (includeLemma req) (includeMorph req)) with
      | Ok sents =>
          (Ok (Some {| out.model := "stanza-de";
                       out.transformer := true;
                       out.sentences := sents |}), [CallStanza t])
      | Raise e => (Ok None, [CallStanza t; Print "[ERR] Stanza failed: " e])
      end
  end.
Proof.
  unfold try_stanza. destruct nlp_stanza as [nlp|]; [|done].
  unfold py_call, py_try, py_lift, py_emit, mbind, Py_bind, mret, Py_ret.
  destruct (nlp t) as [doc|e]; simpl; [|done].
  by destruct (stanza_to_tokens doc _ _).
Qed.

(** [tag] on a text that is non-empty after trimming: the two blocks in
    order, the second only if the first fell through. *)
Lemma tag_nonempty (req : TagRequest) :
  truthy (strip (text req)) = true →
  tag SPACY_MODEL nlp_spacy nlp_stanza req =
  match try_spacy SPACY_MODEL nlp_spacy (strip (text req)) req with
  | (Ok (Some resp), tr) => (Ok resp, tr)
  | (Ok None, tr) =>
      match try_stanza nlp_stanza (strip (text req)) req with
      | (Ok (Some resp), tr') => (Ok resp, (tr ++ tr')%list)
      | (Ok None, tr') =>
          (Raise (HTTPException 503 "No tagging provider available"),
           (tr ++ tr')%list)
      | (Raise e, tr') => (Raise e, (tr ++ tr')%list)
      end
  | (Raise e, tr) => (Raise e, tr)
  end.
Proof.
  intros Ht. unfold tag. rewrite py_or_empty, Ht; simpl.
  unfold mbind, Py_bind, mret, Py_ret, py_raise.
  destruct (try_spacy SPACY_MODEL nlp_spacy _ req) as [[[resp|]|e] tr]; simpl.
  - by rewrite app_nil_r.
  - destruct (try_stanza nlp_stanza _ req) as [[[resp|]|e] tr']; simpl;
      by rewrite ?app_nil_r.
  - done.
Qed.

Lemma tag_empty (req : TagRequest) :
  truthy (strip (text req)) = false →
  tag SPACY_MODEL nlp_spacy nlp_stanza req
  = (Raise (HTTPException 400 "Empty text"), []).
Proof. intros Ht. unfold tag. by rewrite py_or_empty, Ht. Qed.

(** Every successful response comes from exactly one engine, on the trimmed
    text, through that engine's normalizer. *)
Lemma tag_ok_inv (req : TagRequest) (resp : out.Response) :
  (tag SPACY_MODEL nlp_spacy nlp_stanza req).1 = Ok resp →
  (∃ nlp doc, nlp_spacy = Some nlp ∧ nlp (strip (text req)) = Ok doc ∧
     resp = {| out.model := SPACY_MODEL;
               out.transformer := false;
               out.sentences :=
                 map (spacy_sentence (includeLemma req) (includeMorph req))
                     (spacy.sents doc) |})
  ∨ (∃ nlp doc, nlp_stanza = Some nlp ∧ nlp (strip (text req)) = Ok doc ∧
     resp = {| out.model := "stanza-de";
               out.transformer := true;
               out.sentences :=
                 map (stanza_sentence (includeLemma req) (includeMorph req))
                     (stanza.sentences doc) |}).
Proof.
  destruct (truthy (strip (text req))) eqn:Ht;
    [|by rewrite (tag_empty _ Ht)].
  rewrite (tag_nonempty _ Ht), try_spacy_eq, try_stanza_eq.
  destruct nlp_spacy as [nlp1|].
  - destruct (nlp1 (strip (text req))) as [doc1|e1] eqn:H1; simpl.
    + rewrite spacy_to_tokens_eq. simpl. intros [= <-]. left. eauto.
    + destruct nlp_stanza as [nlp2|]; [|done].
      destruct (nlp2 (strip (text req))) as [doc2|e2] eqn:H2; simpl; [|done].
      rewrite stanza_to_tokens_eq. simpl. intros [= <-]. right. eauto.
  - destruct nlp_stanza as [nlp2|]; [|done].
    destruct (nlp2 (strip (text req))) as [doc2|e2] eqn:H2; simpl; [|done].
    rewrite stanza_to_tokens_eq. simpl. intros [= <-]. right. eauto.
Qed.

(** C1: on a text that is non-empty after trimming, if the primary (spaCy)
    pipeline is available and neither its call nor the normalization of its
    document raises, [tag] answers with [transformer = false] and
    [model = SPACY_MODEL], after exactly one call of the primary pipeline. *)
Theorem tag_primary_answers (req : TagRequest)
    (nlp : string → result spacy.Doc) (doc : spacy.Doc)
    (sents : list out.Sentence) :
  truthy (strip (text req)) = true →
  nlp_spacy = Some nlp →
  nlp (strip (text req)) = Ok doc →
  spacy_to_tokens doc (includeLemma req) (includeMorph req) = Ok sents →
  tag SPACY_MODEL nlp_spacy nlp_stanza req
  = (Ok {| out.model := SPACY_MODEL;
           out.transformer := false;
           out.sentences := sents |},
     [CallSpacy (strip (text req))]).
Proof.
  intros Ht Hnlp Hdoc Hsents.
  rewrite (tag_nonempty _ Ht), try_spacy_eq, Hnlp, Hdoc; simpl.
  by rewrite Hsents.
Qed.

(** C2: on a text that is non-empty after trimming, (1) the secondary
    pipeline is called only in runs where the primary is unavailable or
    raised, (2) the primary is called at most once, and (3) if the primary is
    unavailable or raised and the secondary (Stanza) is available and neither
    its call nor its normalization raises, [tag] answers with
    [transformer = true] and [model = "stanza-de"], the trace being the failed
    primary attempt (nothing when unavailable; one call and one print
    otherwise) followed by the single secondary call. *)
Theorem tag_secondary_answers (req : TagRequest) :
  truthy (strip (text req)) = true →
  (∀ t', CallStanza t' ∈ (tag SPACY_MODEL nlp_spacy nlp_stanza req).2 →
         primary_fails nlp_spacy (strip (text req)) req)
  ∧ (List.length (List.filter is_spacy_call
                   (tag SPACY_MODEL nlp_spacy nlp_stanza req).2) ≤ 1)%nat
  ∧ (∀ nlp doc sents,
       primary_fails nlp_spacy (strip (text req)) req →
       nlp_stanza = Some nlp →
       nlp (strip (text req)) = Ok doc →
       stanza_to_tokens doc (includeLemma req) (includeMorph req) = Ok sents →
       (tag SPACY_MODEL nlp_spacy nlp_stanza req).1
       = Ok {| out.model := "stanza-de";
               out.transformer := true;
               out.sentences := sents |}
       ∧ ∃ pre,
           (tag SPACY_MODEL nlp_spacy nlp_stanza req).2
           = (pre ++ [CallStanza (strip (text req))])%list
           ∧ (nlp_spacy = None → pre = [])
           ∧ (is_Some nlp_spacy →
              ∃ e, pre = [CallSpacy (strip (text req));
                          Print "[ERR] spaCy failed: " e])).
Proof.
  intros Ht. rewrite (tag_nonempty _ Ht), try_spacy_eq, try_stanza_eq.
  unfold primary_fails. split; [|split].
  - intros t'. destruct nlp_spacy as [nlp1|]; [|done].
    destruct (_ ← nlp1 _; _) as [ss|e] eqn:H1; [|by eauto].
    simpl. intros Hin. apply list_elem_of_singleton in Hin. done.
  - destruct nlp_spacy as [nlp1|].
    + destruct (_ ← nlp1 _; _) as [ss|e]; [simpl; lia|].
      destruct nlp_stanza as [nlp2|]; [|simpl; lia].
      destruct (_ ← nlp2 _; _); simpl; lia.
    + destruct nlp_stanza as [nlp2|]; [|simpl; lia].
      destruct (_ ← nlp2 _; _); simpl; lia.
  - intros nlp doc sents Hfail Hnlp Hdoc Hsents.
    rewrite Hnlp, Hdoc. simpl. rewrite Hsents.
    destruct nlp_spacy as [nlp1|].
    + destruct Hfail as [e He]. rewrite He. simpl. split; [done|].
      exists [CallSpacy (strip (text req)); Print "[ERR] spaCy failed: " e].
      split; [done|]. split; [done|]. eauto.
    + simpl. split; [done|]. exists []. split; [done|]. split; [done|].
      by intros [? ?].
Qed.

(** C6: when the request text is empty or consists of whitespace only, so
    that nothing is left after trimming, [tag] fails with status 400 and
    detail "Empty text" whatever the two pipelines are, and its trace is
    empty: no pipeline is called. *)
Theorem tag_empty_text (req : TagRequest) :
  blank (text req) = true ∨ strip (text req) = "" →
  tag SPACY_MODEL nlp_spacy nlp_stanza req
  = (Raise (HTTPException 400 "Empty text"), []).
Proof.
  intros H. apply tag_empty.
  destruct H as [H|H]; [by apply strip_empty_iff|by rewrite H].
Qed.

(** C7: on a text that is non-empty after trimming, if the primary is
    unavailable or raised and the secondary is unavailable or raised, [tag]
    fails with status 503 and detail "No tagging provider available". *)
Theorem tag_no_provider (req : TagRequest) :
  truthy (strip (text req)) = true →
  primary_fails nlp_spacy (strip (text req)) req →
  secondary_fails nlp_stanza (strip (text req)) req →
  (tag SPACY_MODEL nlp_spacy nlp_stanza req).1
  = Raise (HTTPException 503 "No tagging provider available").
Proof.
  intros Ht H1 H2. rewrite (tag_nonempty _ Ht), try_spacy_eq, try_stanza_eq.
  unfold primary_fails, secondary_fails in *.
  destruct nlp_spacy as [nlp1|]; [destruct H1 as [e1 ->]|];
    (destruct nlp_stanza as [nlp2|]; [destruct H2 as [e2 ->]|]); done.
Qed.

(** C4: in a response of either engine, a token's [lemma] is [None]
    (JSON [null], never the empty string) when [includeLemma] is false, and
    it is a string exactly when [includeLemma] is true; the same holds for
    the output of each normalizer. *)
Theorem lemma_present_iff_include_lemma :
  (∀ doc il im sents,
     spacy_to_tokens doc il im = Ok sents →
     all_tokens (λ tok, (il = false → out.lemma tok = None) ∧
                        (is_Some (out.lemma tok) ↔ il = true)) sents)
  ∧ (∀ doc il im sents,
     stanza_to_tokens doc il im = Ok sents →
     all_tokens (λ tok, (il = false → out.lemma tok = None) ∧
                        (is_Some (out.lemma tok) ↔ il = true)) sents)
  ∧ (∀ req resp,
     (tag SPACY_MODEL nlp_spacy nlp_stanza req).1 = Ok resp →
     all_tokens (λ tok, (includeLemma req = false → out.lemma tok = None) ∧
                        (is_Some (out.lemma tok) ↔ includeLemma req = true))
                (out.sentences resp)).
Proof.
  assert (Hsp : ∀ il im sents,
    all_tokens (λ tok, (il = false → out.lemma tok = None) ∧
                       (is_Some (out.lemma tok) ↔ il = true))
               (map (spacy_sentence il im) sents)).
  { intros il im sents. apply all_tokens_spacy. intros _ t _ _ _.
    apply lemma_flag. }
  assert (Hst : ∀ il im ss,
    all_tokens (λ tok, (il = false → out.lemma tok = None) ∧
                       (is_Some (out.lemma tok) ↔ il = true))
               (map (stanza_sentence il im) ss)).
  { intros il im ss. apply all_tokens_stanza. intros w _.
    apply lemma_flag. }
  split; [|split].
  - intros doc il im sents. rewrite spacy_to_tokens_eq. intros [= <-].
    apply Hsp.
  - intros doc il im sents. rewrite stanza_to_tokens_eq. intros [= <-].
    apply Hst.
  - intros req resp H.
    apply tag_ok_inv in H as [(nlp & doc & _ & _ & ->)|(nlp & doc & _ & _ & ->)];
      simpl; [apply Hsp|apply Hst].
Qed.

(** C8: with [includeMorph] false every token of a response has the empty
    morph mapping, whichever engine answered; the same holds for the output
    of each normalizer. *)
Theorem include_morph_false_empty :
  (∀ doc il sents,
     spacy_to_tokens doc il false = Ok sents →
     all_tokens (λ tok, out.morph tok = ∅) sents)
  ∧ (∀ doc il sents,
     stanza_to_tokens doc il false = Ok sents →
     all_tokens (λ tok, out.morph tok = ∅) sents)
  ∧ (∀ req resp,
     includeMorph req = false →
     (tag SPACY_MODEL nlp_spacy nlp_stanza req).1 = Ok resp →
     all_tokens (λ tok, out.morph tok = ∅) (out.sentences resp)).
Proof.
  split; [|split].
  - intros doc il sents. rewrite spacy_to_tokens_eq. intros [= <-].
    by apply all_tokens_spacy.
  - intros doc il sents. rewrite stanza_to_tokens_eq. intros [= <-].
    by apply all_tokens_stanza.
  - intros req resp Him H.
    apply tag_ok_inv in H as [(nlp & doc & _ & _ & ->)|(nlp & doc & _ & _ & ->)];
      simpl; rewrite Him.
    + by apply all_tokens_spacy.
    + by apply all_tokens_stanza.
Qed.

(** C5: morph extraction never fails a request.  The primary normalizer
    always returns, its output tokens are the unflagged engine tokens in
    order, and a token whose [morph.to_dict()] raises gets the empty morph
    mapping.  In the secondary normalizer the extraction cannot raise at all
    (the index [1] is only taken of pairs that contain ["="]), so it always
    returns too.  Hence [tag] answers from the primary whenever the primary
    call returns a document, and from the secondary whenever the primary
    failed and the secondary call returns a document. *)
Theorem morph_failure_degrades :
  (∀ doc il im, ∃ sents,
     spacy_to_tokens doc il im = Ok sents ∧
     Forall2 (λ sent s,
        Forall2 (λ t tok,
           out.text tok = spacy.text t ∧
           (∀ e, spacy.morph_to_dict t = Raise e → out.morph tok = ∅))
          (List.filter (λ t, negb (spacy.is_space t)) sent) (out.tokens s))
       (spacy.sents doc) sents)
  ∧ (∀ im w, ∃ m, stanza_feats im w = Ok m)
  ∧ (∀ doc il im, ∃ sents, stanza_to_tokens doc il im = Ok sents)
  ∧ (∀ req nlp doc,
       truthy (strip (text req)) = true →
       nlp_spacy = Some nlp → nlp (strip (text req)) = Ok doc →
       ∃ resp, (tag SPACY_MODEL nlp_spacy nlp_stanza req).1 = Ok resp
               ∧ out.transformer resp = false)
  ∧ (∀ req nlp doc,
       truthy (strip (text req)) = true →
       primary_fails nlp_spacy (strip (text req)) req →
       nlp_stanza = Some nlp → nlp (strip (text req)) = Ok doc →
       ∃ resp, (tag SPACY_MODEL nlp_spacy nlp_stanza req).1 = Ok resp
               ∧ out.transformer resp = true).
Proof.
  split; [|split; [|split; [|split]]].
  - intros doc il im. eexists. split; [apply spacy_to_tokens_eq|].
    apply Forall2_map_intro. intros sent _. simpl.
    apply Forall2_map_intro. intros t _. simpl. split; [done|].
    intros e ->. by destruct im.
  - intros im w. eexists. apply stanza_feats_ok.
  - intros doc il im. eexists. apply stanza_to_tokens_eq.
  - intros req nlp doc Ht Hnlp Hdoc.
    rewrite (tag_nonempty _ Ht), try_spacy_eq, Hnlp, Hdoc. simpl.
    rewrite spacy_to_tokens_eq. simpl. eauto.
  - intros req nlp doc Ht Hfail Hnlp Hdoc.
    rewrite (tag_nonempty _ Ht), try_spacy_eq, try_stanza_eq, Hnlp, Hdoc.
    simpl. rewrite stanza_to_tokens_eq. unfold primary_fails in Hfail.
    destruct nlp_spacy as [nlp1|]; [destruct Hfail as [e ->]|];
      simpl; eauto.
Qed.

(** C9: both normalizers skip the engine tokens that are whitespace only
    or empty after trimming, so every token of a [tag] response has a surface
    text that is non-empty after trimming and not whitespace only.  The
    secondary normalizer tests the trimmed text itself; the primary tests the
    engine's [is_space] flag, which on tokenizer output ([engine_token]) is
    set exactly on the whitespace-only tokens. *)
Theorem kept_tokens_not_space :
  engine_pipeline nlp_spacy →
  (∀ doc il im sents,
     engine_doc doc →
     spacy_to_tokens doc il im = Ok sents →
     all_tokens (λ tok, truthy (strip (out.text tok)) = true
                        ∧ blank (out.text tok) = false) sents)
  ∧ (∀ doc il im sents,
     stanza_to_tokens doc il im = Ok sents →
     all_tokens (λ tok, truthy (strip (out.text tok)) = true
                        ∧ blank (out.text tok) = false) sents)
  ∧ (∀ req resp,
     (tag SPACY_MODEL nlp_spacy nlp_stanza req).1 = Ok resp →
     all_tokens (λ tok, truthy (strip (out.text tok)) = true
                        ∧ blank (out.text tok) = false) (out.sentences resp)).
Proof.
  intros Heng.
  assert (Hnb : ∀ s, blank s = false →
                     truthy (strip s) = true ∧ blank s = false).
  { intros s Hb. split; [|done].
    destruct (truthy (strip s)) eqn:Hs; [done|].
    apply strip_empty_iff in Hs. congruence. }
  assert (Hsp : ∀ doc il im, engine_doc doc →
    all_tokens (λ tok, truthy (strip (out.text tok)) = true
                       ∧ blank (out.text tok) = false)
               (map (spacy_sentence il im) (spacy.sents doc))).
  { intros doc il im Hdoc. apply all_tokens_spacy.
    intros sent t Hsent Ht Hflag. simpl. apply Hnb.
    unfold engine_doc in Hdoc. rewrite Forall_forall in Hdoc.
    specialize (Hdoc sent Hsent). rewrite Forall_forall in Hdoc.
    destruct (Hdoc t Ht) as [Hne Hsp].
    rewrite Hflag in Hsp. unfold str_isspace in Hsp.
    rewrite Hne in Hsp. simpl in Hsp. done. }
  assert (Hst : ∀ il im ss,
    all_tokens (λ tok, truthy (strip (out.text tok)) = true
                       ∧ blank (out.text tok) = false)
               (map (stanza_sentence il im) ss)).
  { intros il im ss. apply all_tokens_stanza. intros w Hw. simpl.
    apply Hnb. destruct (blank (stanza.text w)) eqn:Hb; [|done].
    apply strip_empty_iff in Hb. congruence. }
  split; [|split].
  - intros doc il im sents Hdoc. rewrite spacy_to_tokens_eq. intros [= <-].
    by apply Hsp.
  - intros doc il im sents. rewrite stanza_to_tokens_eq. intros [= <-].
    apply Hst.
  - intros req resp H.
    apply tag_ok_inv in H
      as [(nlp & doc & Hnlp & Hdoc & ->)|(nlp & doc & _ & _ & ->)]; simpl.
    + apply Hsp. exact (Heng nlp _ doc Hnlp Hdoc).
    + apply Hst.
Qed.

End tag_properties.

(** ** Feature strings of the secondary engine *)

(** C3 (as the code has it): with [includeMorph] true and a non-empty
    feature string, extraction returns the mapping built pair by pair from
    the bar-separated pairs, skipping the pairs without ["="]; each kept pair
    is split on every ["="] and only its first two pieces are used, the first
    as key and the second as value.  This is the split-on-the-first-["="]
    reading whenever no pair has more than one ["="]. *)
Theorem stanza_feats_two_pieces (w : stanza.Word) (fs : string) :
  stanza.feats w = Some fs →
  truthy fs = true →
  stanza_feats true w = Ok (feats_two_pieces fs)
  ∧ ((∀ kv, kv ∈ split "|" fs → (count_char "=" kv ≤ 1)%nat) →
     feats_two_pieces fs = feats_first_eq fs).
Proof.
  intros Hfs Ht. split.
  - rewrite stanza_feats_ok. unfold stanza_morph. by rewrite Hfs, Ht.
  - intros Hone. apply store_pairs_ext. intros kv Hin Hc.
    apply before_no_sep, count_char_0.
    specialize (Hone kv Hin). rewrite (count_char_after _ _ Hc) in Hone. lia.
Qed.

(** C3 as stated fails: the pair [K=a=b] is stored as [K -> a], not as
    [K -> a=b]. *)
Lemma stanza_feats_not_first_eq :
  stanza_feats true ex_word_two_eq = Ok {["K" := "a"]}
  ∧ feats_first_eq "K=a=b" = {["K" := "a=b"]}
  ∧ stanza_feats true ex_word_two_eq ≠ Ok (feats_first_eq "K=a=b").
Proof.
  assert (H1 : stanza_feats true ex_word_two_eq = Ok {["K" := "a"]})
    by (vm_compute; reflexivity).
  assert (H2 : feats_first_eq "K=a=b" = {["K" := "a=b"]})
    by (vm_compute; reflexivity).
  split; [done|]. split; [done|].
  rewrite H1, H2. intros [= H].
Qed.

(** ** Sentences *)

(** C10: each normalizer always returns, with exactly one output sentence
    per engine sentence in the engine's order, the output sentence being the
    normalization of that engine sentence alone; a sentence whose tokens are
    all dropped (all flagged [is_space] for the primary, all of blank text
    for the secondary) is still present, with an empty token list. *)
Theorem sentences_one_per_engine_sentence :
  (∀ doc il im, ∃ sents,
     spacy_to_tokens doc il im = Ok sents ∧
     List.length sents = List.length (spacy.sents doc) ∧
     Forall2 (λ sent s,
        s = spacy_sentence il im sent ∧
        (forallb spacy.is_space sent = true → out.tokens s = []))
       (spacy.sents doc) sents)
  ∧ (∀ doc il im, ∃ sents,
     stanza_to_tokens doc il im = Ok sents ∧
     List.length sents = List.length (stanza.sentences doc) ∧
     Forall2 (λ sent s,
        s = stanza_sentence il im sent ∧
        (forallb (λ w, blank (stanza.text w)) (stanza.words sent) = true →
         out.tokens s = []))
       (stanza.sentences doc) sents).
Proof.
  split.
  - intros doc il im. eexists. split; [apply spacy_to_tokens_eq|].
    split; [apply length_map|].
    apply Forall2_map_intro. intros sent _. split; [done|].
    intros Hall. simpl.
    rewrite (filter_all_false _ spacy.is_space); [done| |done].
    by intros t ->.
  - intros doc il im. eexists. split; [apply stanza_to_tokens_eq|].
    split; [apply length_map|].
    apply Forall2_map_intro. intros sent _. split; [done|].
    intros Hall. simpl.
    rewrite (filter_all_false _ (λ w, blank (stanza.text w))); [done| |done].
    intros w Hb. by apply strip_empty_iff.
Qed.

(** ** The theorems at concrete inputs *)

Lemma tag_primary_answers_witness :
  tag "de_core_news_lg" (Some ex_spacy_ok) None ex_req
  = (Ok {| out.model := "de_core_news_lg";
           out.transformer := false;
           out.sentences :=
             map (spacy_sentence true true) (spacy.sents ex_spacy_doc) |},
     [CallSpacy "Der  Hund bellt."]).
Proof.
  apply (tag_primary_answers "de_core_news_lg" (Some ex_spacy_ok) None
           ex_req ex_spacy_ok ex_spacy_doc).
  - reflexivity.
  - reflexivity.
  - reflexivity.
  - vm_compute; reflexivity.
Defined.

Lemma tag_secondary_answers_witness :
  (tag "de_core_news_lg" (Some ex_spacy_raise) (Some ex_stanza_ok) ex_req).1
  = Ok {| out.model := "stanza-de";
          out.transformer := true;
          out.sentences :=
            map (stanza_sentence true true)
                (stanza.sentences ex_stanza_doc) |}.
Proof.
  refine (proj1 (proj2 (proj2
    (tag_secondary_answers "de_core_news_lg" (Some ex_spacy_raise)
       (Some ex_stanza_ok) ex_req _))
    ex_stanza_ok ex_stanza_doc _ _ _ _ _)).
  - reflexivity.
  - exists (Exception "boom"). reflexivity.
  - reflexivity.
  - reflexivity.
  - vm_compute; reflexivity.
Defined.

Lemma tag_empty_text_witness :
  tag "de_core_news_lg" (Some ex_spacy_ok) (Some ex_stanza_ok) ex_req_blank
  = (Raise (HTTPException 400 "Empty text"), []).
Proof.
  apply (tag_empty_text "de_core_news_lg" (Some ex_spacy_ok)
           (Some ex_stanza_ok) ex_req_blank).
  left. reflexivity.
Defined.

Lemma tag_no_provider_witness :
  (tag "de_core_news_lg" (Some ex_spacy_raise) (Some ex_stanza_raise)
     ex_req).1
  = Raise (HTTPException 503 "No tagging provider available").
Proof.
  apply (tag_no_provider "de_core_news_lg" (Some ex_spacy_raise)
           (Some ex_stanza_raise) ex_req).
  - reflexivity.
  - exists (Exception "boom"). reflexivity.
  - exists (Exception "bang"). reflexivity.
Defined.

Lemma stanza_feats_two_pieces_witness :
  stanza_feats true
    (stanza.mkWord "Der" "DET" "der" (Some "Case=Nom|Gender=Masc|junk"))
  = Ok (feats_two_pieces "Case=Nom|Gender=Masc|junk").
Proof.
  refine (proj1 (stanza_feats_two_pieces
    (stanza.mkWord "Der" "DET" "der" (Some "Case=Nom|Gender=Masc|junk"))
    "Case=Nom|Gender=Masc|junk" _ _)).
  - reflexivity.
  - reflexivity.
Defined.

Lemma lemma_present_iff_include_lemma_witness :
  all_tokens (λ tok, (includeLemma ex_req_plain = false →
                      out.lemma tok = None) ∧
                     (is_Some (out.lemma tok) ↔
                      includeLemma ex_req_plain = true))
    (map (spacy_sentence false false) (spacy.sents ex_spacy_doc)).
Proof.
  refine (proj2 (proj2
    (lemma_present_iff_include_lemma "de_core_news_lg" (Some ex_spacy_ok)
       None))
    ex_req_plain
    {| out.model := "de_core_news_lg";
       out.transformer := false;
       out.sentences :=
         map (spacy_sentence false false) (spacy.sents ex_spacy_doc) |} _).
  vm_compute; reflexivity.
Defined.

Lemma include_morph_false_empty_witness :
  all_tokens (λ tok, out.morph tok = ∅)
    (map (stanza_sentence false false) (stanza.sentences ex_stanza_doc)).
Proof.
  refine (proj2 (proj2
    (include_morph_false_empty "de_core_news_lg" None (Some ex_stanza_ok)))
    ex_req_plain
    {| out.model := "stanza-de";
       out.transformer := true;
       out.sentences :=
         map (stanza_sentence false false)
             (stanza.sentences ex_stanza_doc) |} _ _).
  - reflexivity.
  - vm_compute; reflexivity.
Defined.

Lemma morph_failure_degrades_witness :
  ∃ resp,
    (tag "de_core_news_lg" (Some ex_spacy_ok) None ex_req).1 = Ok resp
    ∧ out.transformer resp = false.
Proof.
  refine (proj1 (proj2 (proj2 (proj2
    (morph_failure_degrades "de_core_news_lg" (Some ex_spacy_ok) None))))
    ex_req ex_spacy_ok ex_spacy_doc _ _ _).
  - reflexivity.
  - reflexivity.
  - reflexivity.
Defined.

Lemma kept_tokens_not_space_witness :
  all_tokens (λ tok, truthy (strip (out.text tok)) = true
                     ∧ blank (out.text tok) = false)
    (map (spacy_sentence true true) (spacy.sents ex_spacy_doc)).
Proof.
  refine (proj2 (proj2
    (kept_tokens_not_space "de_core_news_lg" (Some ex_spacy_ok)
       (Some ex_stanza_ok) _))
    ex_req
    {| out.model := "de_core_news_lg";
       out.transformer := false;
       out.sentences :=
         map (spacy_sentence true true) (spacy.sents ex_spacy_doc) |} _).
  - intros nlp t doc [= <-] [= <-].
    repeat constructor.
  - vm_compute; reflexivity.
Defined.

Lemma sentences_one_per_engine_sentence_witness :
  ∃ sents,
    spacy_to_tokens ex_spacy_doc true true = Ok sents ∧
    List.length sents = 2 ∧
    Forall2 (λ sent s,
       s = spacy_sentence true true sent ∧
       (forallb spacy.is_space sent = true → out.tokens s = []))
      (spacy.sents ex_spacy_doc) sents.
Proof.
  exact (proj1 sentences_one_per_engine_sentence ex_spacy_doc true true).
Defined.

(** ** Trimming *)

Lemma append_cons (c : ascii) (a b : string) :
  String c a +:+ b = String c (a +:+ b).
Proof. reflexivity. Qed.

Lemma append_nil_l (b : string) : "" +:+ b = b.
Proof. reflexivity. Qed.

Lemma lstrip_split (s : string) :
  ∃ pre, s = pre +:+ lstrip s ∧ blank pre = true.
Proof.
  induction s as [|c r (pre & IH & Hpre)]; simpl; [by exists ""|].
  destruct (isspace c) eqn:Hc.
  - exists (String c pre). rewrite append_cons, <- IH. simpl.
    by rewrite Hc.
  - by exists "".
Qed.

Lemma lstrip_starts (s : string) : starts_with_space (lstrip s) = false.
Proof.
  induction s as [|c r IH]; simpl; [done|].
  destruct (isspace c) eqn:Hc; [done|]. simpl. exact Hc.
Qed.

Lemma rstrip_split (s : string) :
  ∃ suf, s = rstrip s +:+ suf ∧ blank suf = true.
Proof.
  induction s as [|c r (suf & IH & Hsuf)]; simpl; [by exists ""|].
  destruct (isspace c) eqn:Hc; simpl.
  - destruct (truthy (rstrip r)) eqn:Hr; simpl.
    + exists suf. by rewrite append_cons, <- IH.
    + exists (String c r). rewrite append_nil_l. simpl. rewrite Hc.
      split; [done|]. by apply rstrip_empty_iff.
  - exists suf. by rewrite append_cons, <- IH.
Qed.

Lemma rstrip_ends (s : string) : ends_with_space (rstrip s) = false.
Proof.
  induction s as [|c r IH]; simpl; [done|].
  destruct (isspace c) eqn:Hc; simpl.
  - destruct (truthy (rstrip r)) eqn:Hr; simpl; [|done]. by rewrite Hr.
  - rewrite IH, Hc. by destruct (truthy (rstrip r)).
Qed.

Lemma rstrip_starts (s : string) :
  starts_with_space s = false → starts_with_space (rstrip s) = false.
Proof.
  destruct s as [|c r]; simpl; [done|].
  intros Hc. rewrite Hc. simpl. exact Hc.
Qed.

(** What [strip] returns: the text between a whitespace-only prefix and a
    whitespace-only suffix, itself neither starting nor ending with
    whitespace. *)
Lemma strip_shape (s : string) :
  starts_with_space (strip s) = false
  ∧ ends_with_space (strip s) = false
  ∧ ∃ pre suf, s = pre +:+ strip s +:+ suf
               ∧ blank pre = true ∧ blank suf = true.
Proof.
  unfold strip. split; [|split].
  - apply rstrip_starts, lstrip_starts.
  - apply rstrip_ends.
  - destruct (lstrip_split s) as (pre & Hs & Hpre).
    destruct (rstrip_split (lstrip s)) as (suf & Hl & Hsuf).
    exists pre, suf. split; [|done]. by rewrite <- Hl.
Qed.

(** Case analysis on membership in an explicit list of events. *)
Ltac split_elem H :=
  simpl in H;
  repeat match type of H with
  | _ ∈ _ :: _ => apply elem_of_cons in H as [H|H]
  | _ ∈ [] => by apply elem_of_nil in H
  end.

(** Picks the disjunct of [two_tiers_events] that an event equation
    [H : ev = ...] names. *)
Ltac pick_event :=
  first
    [ left; assumption
    | right; left; assumption
    | right; right; left; do 2 eexists;
      split; [eassumption|split; [reflexivity|eassumption]]
    | right; right; right; do 2 eexists;
      split; [eassumption|split; [reflexivity|split; [eassumption|]]];
      first [ left; reflexivity
            | right; do 2 eexists; split; [reflexivity|eassumption] ] ].

(** ** More on the route [tag] *)

Section tag_outcomes.
Variable SPACY_MODEL : string.
Variable nlp_spacy : option (string → result spacy.Doc).
Variable nlp_stanza : option (string → result stanza.Document).

(** On a non-empty trimmed text the outcome of [tag] is fixed by the results
    of the pipeline calls: the normalizers add no failure of their own. *)
Lemma tag_two_tiers (req : TagRequest) :
  truthy (strip (text req)) = true →
  tag SPACY_MODEL nlp_spacy nlp_stanza req
  = two_tiers SPACY_MODEL nlp_spacy nlp_stanza (strip (text req))
      (includeLemma req) (includeMorph req).
Proof.
  intros Ht.
  rewrite (tag_nonempty _ _ _ _ Ht), try_spacy_eq, try_stanza_eq.
  unfold two_tiers, stanza_tier.
  destruct nlp_spacy as [nlp1|].
  - destruct (nlp1 (strip (text req))) as [doc1|e1]; simpl.
    + by rewrite spacy_to_tokens_eq.
    + destruct nlp_stanza as [nlp2|]; [|done].
      destruct (nlp2 (strip (text req))) as [doc2|e2]; simpl; [|done].
      by rewrite stanza_to_tokens_eq.
  - destruct nlp_stanza as [nlp2|]; [|done].
    destruct (nlp2 (strip (text req))) as [doc2|e2]; simpl; [|done].
    by rewrite stanza_to_tokens_eq.
Qed.

(** On a non-empty trimmed text [tag] is fixed by the outcomes of its two
    attempts, whichever step of an attempt raised. *)
Lemma tag_by_attempts (req : TagRequest) :
  truthy (strip (text req)) = true →
  tag SPACY_MODEL nlp_spacy nlp_stanza req
  = by_attempts SPACY_MODEL (strip (text req))
      (spacy_attempt nlp_spacy (strip (text req)) req)
      (stanza_attempt nlp_stanza (strip (text req)) req).
Proof.
  intros Ht.
  rewrite (tag_nonempty _ _ _ _ Ht), try_spacy_eq, try_stanza_eq.
  unfold by_attempts, second_attempt, spacy_attempt, stanza_attempt.
  destruct nlp_spacy as [nlp1|].
  - destruct (_ ← nlp1 _; _) as [ss1|e1]; [done|].
    destruct nlp_stanza as [nlp2|]; [|done].
    by destruct (_ ← nlp2 _; _) as [ss2|e2].
  - destruct nlp_stanza as [nlp2|]; [|done].
    by destruct (_ ← nlp2 _; _) as [ss2|e2].
Qed.

(** X1: the only exceptions [tag] raises are its own two.  It raises 400
    "Empty text" exactly on a blank text, with no event at all, and it raises
    503 only when each pipeline is unavailable or its attempt (the call, then
    the normalization of the document) raised; an exception raised inside an
    attempt never escapes. *)
Theorem tag_raises_only_http (req : TagRequest) (e : exn) :
  (tag SPACY_MODEL nlp_spacy nlp_stanza req).1 = Raise e →
  (e = HTTPException 400 "Empty text"
   ∧ blank (text req) = true
   ∧ (tag SPACY_MODEL nlp_spacy nlp_stanza req).2 = [])
  ∨ (e = HTTPException 503 "No tagging provider available"
     ∧ blank (text req) = false
     ∧ (spacy_attempt nlp_spacy (strip (text req)) req = None ∨
        ∃ e1, spacy_attempt nlp_spacy (strip (text req)) req
              = Some (Raise e1))
     ∧ (stanza_attempt nlp_stanza (strip (text req)) req = None ∨
        ∃ e2, stanza_attempt nlp_stanza (strip (text req)) req
              = Some (Raise e2))).
Proof.
  destruct (truthy (strip (text req))) eqn:Ht.
  - assert (Hb : blank (text req) = false).
    { destruct (blank (text req)) eqn:Hb; [|done].
      apply strip_empty_iff in Hb. congruence. }
    rewrite (tag_by_attempts _ Ht).
    destruct (spacy_attempt _ _ _) as [[ss1|e1]|];
      destruct (stanza_attempt _ _ _) as [[ss2|e2]|];
      simpl; intros H; try discriminate H; injection H as <-;
      right; (split; [done|]); (split; [done|]); split; eauto.
  - rewrite (tag_empty _ _ _ _ Ht). simpl. intros [= <-]. left.
    split; [done|]. split; [|done]. by apply strip_empty_iff.
Qed.

(** X2: the outcome and the events of [tag] depend on the request only
    through the trimmed text, [includeLemma] and [includeMorph]:
    [splitSentences] and surrounding whitespace change nothing. *)
Theorem tag_depends_on_trimmed_text_and_flags (req1 req2 : TagRequest) :
  strip (text req1) = strip (text req2) →
  includeLemma req1 = includeLemma req2 →
  includeMorph req1 = includeMorph req2 →
  tag SPACY_MODEL nlp_spacy nlp_stanza req1
  = tag SPACY_MODEL nlp_spacy nlp_stanza req2.
Proof.
  intros Ht Hl Hm.
  destruct (truthy (strip (text req1))) eqn:H1.
  - rewrite (tag_two_tiers req1 H1).
    rewrite Ht in H1. rewrite (tag_two_tiers req2 H1).
    by rewrite Ht, Hl, Hm.
  - rewrite (tag_empty _ _ _ _ H1).
    rewrite Ht in H1. by rewrite (tag_empty _ _ _ _ H1).
Qed.

(** Every event of the two tiers is one of four: the two calls on [t] and
    the two prints, each print carrying the exception its call raised. *)
Lemma two_tiers_events (t : string) (il im : bool) (ev : event) :
  ev ∈ (two_tiers SPACY_MODEL nlp_spacy nlp_stanza t il im).2 →
  ev = CallSpacy t
  ∨ ev = CallStanza t
  ∨ (∃ e nlp, ev = Print "[ERR] spaCy failed: " e
              ∧ nlp_spacy = Some nlp ∧ nlp t = Raise e)
  ∨ (∃ e nlp, ev = Print "[ERR] Stanza failed: " e
              ∧ nlp_stanza = Some nlp ∧ nlp t = Raise e
              ∧ (nlp_spacy = None ∨
                 ∃ nlp1 e1, nlp_spacy = Some nlp1 ∧ nlp1 t = Raise e1)).
Proof.
  unfold two_tiers, stanza_tier.
  destruct nlp_spacy as [nlp1|].
  - destruct (nlp1 t) as [doc1|e1] eqn:H1.
    + intros H. split_elem H. by left.
    + destruct nlp_stanza as [nlp2|].
      * destruct (nlp2 t) as [doc2|e2] eqn:H2;
          intros H; split_elem H; pick_event.
      * intros H. split_elem H; pick_event.
  - destruct nlp_stanza as [nlp2|].
    + destruct (nlp2 t) as [doc2|e2] eqn:H2;
        intros H; split_elem H; pick_event.
    + intros H. split_elem H.
Qed.

(** X3: whatever text a pipeline is called on is the trimmed request text:
    it is non-empty, neither starts nor ends with whitespace, and the request
    text is it between a whitespace-only prefix and a whitespace-only
    suffix. *)
Theorem tag_calls_on_trimmed_text (req : TagRequest) (t : string) :
  CallSpacy t ∈ (tag SPACY_MODEL nlp_spacy nlp_stanza req).2
  ∨ CallStanza t ∈ (tag SPACY_MODEL nlp_spacy nlp_stanza req).2 →
  t = strip (text req)
  ∧ truthy t = true
  ∧ starts_with_space t = false
  ∧ ends_with_space t = false
  ∧ ∃ pre suf, text req = pre +:+ t +:+ suf
               ∧ blank pre = true ∧ blank suf = true.
Proof.
  intros Hin.
  assert (Heq : t = strip (text req) ∧ truthy (strip (text req)) = true).
  { destruct (truthy (strip (text req))) eqn:Ht.
    - split; [|done]. rewrite (tag_two_tiers _ Ht) in Hin.
      destruct Hin as [Hin|Hin];
        apply two_tiers_events in Hin
          as [H|[H|[(? & ? & H & _)|(? & ? & H & _)]]];
        by inversion H.
    - rewrite (tag_empty _ _ _ _ Ht) in Hin. simpl in Hin.
      destruct Hin as [Hin|Hin]; by apply elem_of_nil in Hin. }
  destruct Heq as [-> Ht]. split; [done|]. split; [done|].
  apply strip_shape.
Qed.

(** X4: on a non-empty trimmed text, a line is printed exactly for an
    attempt that raised, with the exception it raised: "[ERR] spaCy failed: "
    when the primary is loaded and its call or the normalization of its
    document raised, "[ERR] Stanza failed: " when moreover the primary did not
    answer and the secondary is loaded and its call or normalization
    raised. *)
Theorem tag_prints_attempt_failures (req : TagRequest) (p : string)
    (e : exn) :
  truthy (strip (text req)) = true →
  Print p e ∈ (tag SPACY_MODEL nlp_spacy nlp_stanza req).2
  ↔ (p = "[ERR] spaCy failed: "
     ∧ spacy_attempt nlp_spacy (strip (text req)) req = Some (Raise e))
    ∨ (p = "[ERR] Stanza failed: "
       ∧ (∀ sents, spacy_attempt nlp_spacy (strip (text req)) req
                   ≠ Some (Ok sents))
       ∧ stanza_attempt nlp_stanza (strip (text req)) req
         = Some (Raise e)).
Proof.
  intros Ht. rewrite (tag_by_attempts _ Ht).
  destruct (spacy_attempt _ _ _) as [[ss1|e1]|];
    destruct (stanza_attempt _ _ _) as [[ss2|e2]|];
    simpl; split.
  all: try (intros H; split_elem H; try discriminate H;
            injection H as <- <-;
            first [ by left
                  | right; split; [done|]; split; [by intros ?|done] ]).
  all: intros [(-> & H)|(-> & Hno & H)];
    try discriminate H; try (by destruct (Hno ss1));
    injection H as <-; repeat constructor.
Qed.

(** X5: [health] and [tag] agree.  If [health] reports [ok = false], no
    request is ever answered and no pipeline is ever called; when [tag]
    answers, [health] reports the answering provider as loaded. *)
Theorem health_agrees_with_tag (req : TagRequest) :
  ((health nlp_spacy nlp_stanza).1 = false →
   (∃ e, (tag SPACY_MODEL nlp_spacy nlp_stanza req).1 = Raise e)
   ∧ (tag SPACY_MODEL nlp_spacy nlp_stanza req).2 = [])
  ∧ (∀ resp,
       (tag SPACY_MODEL nlp_spacy nlp_stanza req).1 = Ok resp →
       (health nlp_spacy nlp_stanza).1 = true
       ∧ (out.transformer resp = false →
          (health nlp_spacy nlp_stanza).2.1 = true)
       ∧ (out.transformer resp = true →
          (health nlp_spacy nlp_stanza).2.2 = true)).
Proof.
  split.
  - intros Hh.
    assert (nlp_spacy = None ∧ nlp_stanza = None) as [-> ->].
    { unfold health in Hh. simpl in Hh.
      destruct nlp_spacy, nlp_stanza; try done;
        rewrite bool_decide_eq_true_2 in Hh by eauto; done. }
    destruct (truthy (strip (text req))) eqn:Ht.
    + rewrite (tag_nonempty _ _ _ _ Ht). simpl. eauto.
    + rewrite (tag_empty _ _ _ _ Ht). simpl. eauto.
  - intros resp H.
    apply tag_ok_inv in H
      as [(nlp & doc & -> & _ & ->)|(nlp & doc & -> & _ & ->)];
      unfold health; simpl.
    + by repeat split.
    + split; [apply orb_true_r|by split].
Qed.

End tag_outcomes.

(** ** Module load *)

Section load_properties.
Variable environ : gmap string string.
Variable spacy_load : string → result (string → result spacy.Doc).
Variable stanza_download : string → string → result unit.
Variable stanza_Pipeline :
  string → string → result (string → result stanza.Document).

(** X6: loading the module never raises, whatever the loaders do.  The
    model name is the environment's [SPACY_MODEL] when it is set (even to the
    empty string) and "de_core_news_lg" otherwise; the primary pipeline is
    available exactly when [spacy.load] of that name returned; the secondary
    exactly when both [stanza.download] and [stanza.Pipeline] returned, so a
    failed download leaves it unavailable; and exactly one warning is printed
    per unavailable pipeline, nothing else. *)
Theorem load_module_never_raises :
  ∃ m tr,
    load_module environ spacy_load stanza_download stanza_Pipeline
    = (Ok m, tr)
    ∧ ld_SPACY_MODEL m = default "de_core_news_lg" (environ !! "SPACY_MODEL")
    ∧ (∀ nlp, ld_nlp_spacy m = Some nlp
              ↔ spacy_load (ld_SPACY_MODEL m) = Ok nlp)
    ∧ (∀ nlp, ld_nlp_stanza m = Some nlp
              ↔ stanza_download "de" "tokenize,pos,lemma,mwt" = Ok tt
                ∧ stanza_Pipeline "de" "tokenize,pos,lemma,mwt" = Ok nlp)
    ∧ Forall (λ ev, is_print ev = true) tr
    ∧ List.length tr
      = (match ld_nlp_spacy m with Some _ => 0 | None => 1 end
         + match ld_nlp_stanza m with Some _ => 0 | None => 1 end)%nat.
Proof.
  unfold load_module, load_spacy, load_stanza, getenv.
  unfold py_try, py_lift, py_emit, mbind, Py_bind, mret, Py_ret.
  change STANZA_LANG with "de".
  change STANZA_PROCESSORS with "tokenize,pos,lemma,mwt".
  set (model := match environ !! "SPACY_MODEL" with
                | Some v => v
                | None => "de_core_news_lg"
                end).
  assert (Hmodel : model = default "de_core_news_lg"
                             (environ !! "SPACY_MODEL"))
    by (subst model; by destruct (environ !! "SPACY_MODEL")).
  destruct (spacy_load model) as [p1|e1] eqn:H1;
    (destruct (stanza_download "de" "tokenize,pos,lemma,mwt")
       as [[]|e2] eqn:H2;
     [destruct (stanza_Pipeline "de" "tokenize,pos,lemma,mwt")
        as [p3|e3] eqn:H3|]);
    simpl; do 2 eexists; (split; [reflexivity|]); simpl;
    (split; [exact Hmodel|]);
    (split; [intros nlp; rewrite H1; split; congruence|]);
    (split; [intros nlp; rewrite ?H2, ?H3;
             split; [intros ?; simplify_eq; by split
                    |intros [? ?]; by simplify_eq]|]);
    (split; [repeat constructor|reflexivity]).
Qed.

(** X7: after loading, [health] reports exactly what the loaders did: the
    primary flag is whether [spacy.load] returned, the secondary flag whether
    both the download and the pipeline construction returned, and [ok] is
    their disjunction. *)
Theorem health_after_load :
  ∃ m tr,
    load_module environ spacy_load stanza_download stanza_Pipeline
    = (Ok m, tr)
    ∧ health (ld_nlp_spacy m) (ld_nlp_stanza m)
      = (is_Ok (spacy_load (ld_SPACY_MODEL m))
         || is_Ok (stanza_download "de" "tokenize,pos,lemma,mwt")
            && is_Ok (stanza_Pipeline "de" "tokenize,pos,lemma,mwt"),
         (is_Ok (spacy_load (ld_SPACY_MODEL m)),
          is_Ok (stanza_download "de" "tokenize,pos,lemma,mwt")
          && is_Ok (stanza_Pipeline "de" "tokenize,pos,lemma,mwt"))).
Proof.
  unfold load_module, load_spacy, load_stanza.
  unfold py_try, py_lift, py_emit, mbind, Py_bind, mret, Py_ret.
  change STANZA_LANG with "de".
  change STANZA_PROCESSORS with "tokenize,pos,lemma,mwt".
  set (model := getenv environ "SPACY_MODEL" "de_core_news_lg").
  destruct (spacy_load model) as [p1|e1] eqn:H1;
    (destruct (stanza_download "de" "tokenize,pos,lemma,mwt")
       as [[]|e2] eqn:H2;
     [destruct (stanza_Pipeline "de" "tokenize,pos,lemma,mwt")
        as [p3|e3] eqn:H3|]);
    simpl; do 2 eexists; (split; [reflexivity|]); simpl;
    rewrite H1; reflexivity.
Qed.

End load_properties.

(** ** More on the normalizers *)

Lemma mask_spacy_token (il im : bool) (t : spacy.Token) :
  mask_token il im (spacy_token true true t) = spacy_token il im t.
Proof. unfold mask_token, spacy_token. simpl. by destruct il, im. Qed.

Lemma mask_stanza_token (il im : bool) (w : stanza.Word) :
  mask_token il im (stanza_token true true w) = stanza_token il im w.
Proof. unfold mask_token, stanza_token. simpl. by destruct il, im. Qed.

(** X8: for the primary normalizer the two flags only erase fields.  The
    output under any flags is the output under both flags set, with [lemma]
    replaced by [None] when [include_lemma] is off and [morph] by the empty
    mapping when [include_morph] is off; the kept tokens, their order, text
    and part of speech never depend on the flags. *)
Theorem spacy_flags_only_mask (doc : spacy.Doc) :
  ∃ full,
    spacy_to_tokens doc true true = Ok full
    ∧ ∀ il im,
        spacy_to_tokens doc il im = Ok (map (mask_sentence il im) full).
Proof.
  eexists. split; [apply spacy_to_tokens_eq|].
  intros il im. rewrite spacy_to_tokens_eq. f_equal.
  rewrite map_map. apply map_ext. intros sent.
  unfold mask_sentence, spacy_sentence. simpl. f_equal.
  rewrite map_map. apply map_ext. intros t. by rewrite mask_spacy_token.
Qed.

(** X9: the same for the secondary normalizer. *)
Theorem stanza_flags_only_mask (doc : stanza.Document) :
  ∃ full,
    stanza_to_tokens doc true true = Ok full
    ∧ ∀ il im,
        stanza_to_tokens doc il im = Ok (map (mask_sentence il im) full).
Proof.
  eexists. split; [apply stanza_to_tokens_eq|].
  intros il im. rewrite stanza_to_tokens_eq. f_equal.
  rewrite map_map. apply map_ext. intros sent.
  unfold mask_sentence, stanza_sentence. simpl. f_equal.
  rewrite map_map. apply map_ext. intros w. by rewrite mask_stanza_token.
Qed.

(** X10: the primary normalizer copies the engine's values.  Whenever it
    returns, its output has, sentence by sentence, the engine tokens not
    flagged [is_space], in order; each carries the engine's [text] and [pos_]
    unchanged, the engine's [lemma_] when [include_lemma] is set, and, when
    [include_morph] is set and [morph.to_dict()] returns, exactly the
    returned mapping. *)
Theorem spacy_tokens_verbatim (doc : spacy.Doc) (il im : bool)
    (sents : list out.Sentence) :
  spacy_to_tokens doc il im = Ok sents →
  Forall2 (λ sent s,
     Forall2 (λ t tok,
        out.text tok = spacy.text t
        ∧ out.pos tok = spacy.pos_ t
        ∧ (il = true → out.lemma tok = Some (spacy.lemma_ t))
        ∧ (im = true → ∀ d, spacy.morph_to_dict t = Ok d →
                            out.morph tok = d))
       (List.filter (λ t, negb (spacy.is_space t)) sent) (out.tokens s))
    (spacy.sents doc) sents.
Proof.
  rewrite spacy_to_tokens_eq. intros [= <-].
  apply Forall2_map_intro. intros sent _. simpl.
  apply Forall2_map_intro. intros t _. simpl.
  split; [done|]. split; [done|]. split.
  - by intros ->.
  - by intros -> d ->.
Qed.

(** X11: the secondary normalizer copies the engine's values.  Sentence by
    sentence, its tokens are the words whose text is non-empty after
    trimming, in order; each carries the word's [text] as it is (not
    trimmed) and its [upos], the word's [lemma] when [include_lemma] is set,
    and the empty mapping when the word has no features ([None] or the empty
    string). *)
Theorem stanza_tokens_verbatim (doc : stanza.Document) (il im : bool) :
  ∃ sents,
    stanza_to_tokens doc il im = Ok sents
    ∧ Forall2 (λ sent s,
         Forall2 (λ w tok,
            out.text tok = stanza.text w
            ∧ out.pos tok = stanza.upos w
            ∧ (il = true → out.lemma tok = Some (stanza.lemma w))
            ∧ (stanza.feats w = None ∨ stanza.feats w = Some "" →
               out.morph tok = ∅))
           (List.filter (λ w, truthy (strip (stanza.text w)))
                        (stanza.words sent))
           (out.tokens s))
        (stanza.sentences doc) sents.
Proof.
  eexists. split; [apply stanza_to_tokens_eq|].
  apply Forall2_map_intro. intros sent _. simpl.
  apply Forall2_map_intro. intros w _. simpl.
  split; [done|]. split; [done|]. split.
  - by intros ->.
  - unfold stanza_morph. intros [->| ->]; by destruct im.
Qed.

(** ** More on feature strings *)

Lemma contains_app (c : ascii) (a b : string) :
  contains c (a +:+ b) = contains c a || contains c b.
Proof.
  induction a as [|x a IH]; [done|].
  rewrite append_cons. simpl. rewrite IH.
  by destruct (Ascii.eqb x c).
Qed.

Lemma contains_truthy (c : ascii) (s : string) :
  contains c s = true → truthy s = true.
Proof. by destruct s. Qed.

Lemma append_assoc (a b c : string) :
  (a +:+ b) +:+ c = a +:+ (b +:+ c).
Proof.
  induction a as [|x a IH]; [done|].
  by rewrite !append_cons, IH.
Qed.

Lemma before_app_sep (sep : ascii) (a b : string) :
  contains sep a = false → before sep (a +:+ String sep b) = a.
Proof.
  induction a as [|x a IH]; simpl.
  - intros _. rewrite ?append_nil_l. simpl. by rewrite Ascii.eqb_refl.
  - rewrite ?append_cons. simpl.
    destruct (Ascii.eqb x sep); [done|]. intros H. by rewrite IH.
Qed.

Lemma after_app_sep (sep : ascii) (a b : string) :
  contains sep a = false → after sep (a +:+ String sep b) = b.
Proof.
  induction a as [|x a IH]; simpl.
  - intros _. rewrite ?append_nil_l. simpl. by rewrite Ascii.eqb_refl.
  - rewrite ?append_cons. simpl.
    destruct (Ascii.eqb x sep); [done|]. exact IH.
Qed.

Lemma contains_app_sep (sep : ascii) (a b : string) :
  contains sep (a +:+ String sep b) = true.
Proof.
  rewrite contains_app. simpl. rewrite Ascii.eqb_refl. apply orb_true_r.
Qed.

Lemma split_no_sep (sep : ascii) (s : string) :
  contains sep s = false → split sep s = [s].
Proof.
  intros H. by rewrite split_before_after, H, before_no_sep.
Qed.

Lemma split_app_sep (sep : ascii) (a b : string) :
  contains sep a = false →
  split sep (a +:+ String sep b) = a :: split sep b.
Proof.
  intros H.
  by rewrite split_before_after, contains_app_sep, before_app_sep,
    after_app_sep.
Qed.

Lemma contains_before (c sep : ascii) (s : string) :
  contains c s = false → contains c (before sep s) = false.
Proof.
  induction s as [|x s IH]; simpl; [done|].
  destruct (Ascii.eqb x sep); [done|]. simpl.
  destruct (Ascii.eqb x c); [done|]. exact IH.
Qed.

Lemma contains_after (c sep : ascii) (s : string) :
  contains c s = false → contains c (after sep s) = false.
Proof.
  induction s as [|x s IH]; simpl; [done|].
  destruct (Ascii.eqb x c); [done|].
  destruct (Ascii.eqb x sep); [done|]. exact IH.
Qed.

Lemma before_no_self (sep : ascii) (s : string) :
  contains sep (before sep s) = false.
Proof.
  induction s as [|x s IH]; simpl; [done|].
  destruct (Ascii.eqb x sep) eqn:Hx; [done|]. simpl. by rewrite Hx.
Qed.

Lemma split_pieces_no_sep (sep : ascii) (s : string) :
  Forall (λ x, contains sep x = false) (split sep s).
Proof.
  induction s as [|a r IH]; simpl; [by repeat constructor|].
  destruct (Ascii.eqb a sep) eqn:Ha; [by constructor|].
  destruct (split sep r) as [|h t]; [repeat constructor; simpl; by rewrite Ha|].
  apply Forall_cons in IH as [Hh Ht].
  constructor; [|done]. simpl. by rewrite Ha.
Qed.

Lemma no_separator_spec (s : string) :
  no_separator s = true ↔ contains "=" s = false ∧ contains "|" s = false.
Proof.
  unfold no_separator.
  destruct (contains "=" s), (contains "|" s); simpl; split;
    first [done | by intros [? ?]].
Qed.

Lemma join_feats_cons (kv kv' : string * string)
    (rest : list (string * string)) :
  join_feats (kv :: kv' :: rest)
  = (kv.1 +:+ String "=" kv.2) +:+ String "|" (join_feats (kv' :: rest)).
Proof. by rewrite append_assoc. Qed.

Lemma split_join_feats (pairs : list (string * string)) :
  Forall (λ kv, no_separator kv.1 = true ∧ no_separator kv.2 = true) pairs →
  pairs ≠ [] →
  split "|" (join_feats pairs) = map (λ kv, kv.1 +:+ String "=" kv.2) pairs.
Proof.
  induction pairs as [|kv rest IH]; [done|].
  intros [[[_ Hk]%no_separator_spec [_ Hv]%no_separator_spec] Hrest]%Forall_cons
    _.
  assert (Hbar : contains "|" (kv.1 +:+ String "=" kv.2) = false).
  { rewrite contains_app, Hk. simpl. exact Hv. }
  destruct rest as [|kv' rest'].
  - simpl. change (kv.1 +:+ "=" +:+ kv.2) with (kv.1 +:+ String "=" kv.2).
    by rewrite split_no_sep.
  - rewrite join_feats_cons, (split_app_sep _ _ _ Hbar), IH; done.
Qed.

Lemma foldl_rendered_pairs (pairs : list (string * string))
    (acc : gmap string string) :
  Forall (λ kv, no_separator kv.1 = true ∧ no_separator kv.2 = true) pairs →
  foldl (λ acc kv, <[before "=" kv := before "=" (after "=" kv)]> acc) acc
        (List.filter (contains "=")
                     (map (λ kv, kv.1 +:+ String "=" kv.2) pairs))
  = foldl (λ acc kv, <[kv.1 := kv.2]> acc) acc pairs.
Proof.
  revert acc. induction pairs as [|kv rest IH]; intros acc; [done|].
  intros [[[Hk _]%no_separator_spec [Hv _]%no_separator_spec] Hrest]%Forall_cons.
  simpl. rewrite contains_app_sep. simpl.
  rewrite (before_app_sep _ _ _ Hk), (after_app_sep _ _ _ Hk),
    (before_no_sep _ _ Hv).
  by apply IH.
Qed.

(** X12: parsing inverts joining.  If a word's feature string is the pairs
    [k=v] joined by bars, with no ["="] or ["|"] inside any key or value, the
    extracted mapping holds exactly those pairs, a later pair replacing an
    earlier one with the same key; with distinct keys it is the mapping of
    the pairs. *)
Theorem stanza_feats_round_trip (w : stanza.Word)
    (pairs : list (string * string)) :
  Forall (λ kv, no_separator kv.1 = true ∧ no_separator kv.2 = true) pairs →
  stanza.feats w = Some (join_feats pairs) →
  stanza_feats true w
  = Ok (foldl (λ acc kv, <[kv.1 := kv.2]> acc) ∅ pairs)
  ∧ (NoDup pairs.*1 → stanza_feats true w = Ok (list_to_map pairs)).
Proof.
  intros Hclean Hfs.
  assert (H : stanza_feats true w
              = Ok (foldl (λ acc kv, <[kv.1 := kv.2]> acc) ∅ pairs)).
  { rewrite stanza_feats_ok. unfold stanza_morph. rewrite Hfs.
    destruct pairs as [|kv rest]; [done|].
    assert (Ht : truthy (join_feats (kv :: rest)) = true).
    { apply (contains_truthy "=").
      destruct rest as [|kv' rest'].
      - apply (contains_app_sep "=" kv.1 kv.2).
      - rewrite join_feats_cons, contains_app, contains_app_sep. done. }
    rewrite Ht. unfold feats_two_pieces, store_pairs.
    rewrite split_join_feats by done.
    by rewrite foldl_rendered_pairs. }
  split; [exact H|].
  intros Hnd. rewrite H, foldl_insert_reverse. f_equal.
  apply list_to_map_proper.
  - by rewrite fmap_reverse, reverse_Permutation.
  - apply reverse_Permutation.
Qed.

Lemma foldl_store_clean (kvs : list string) (acc : gmap string string) :
  Forall (λ kv, contains "|" kv = false) kvs →
  map_Forall (λ k v, no_separator k = true ∧ no_separator v = true) acc →
  map_Forall (λ k v, no_separator k = true ∧ no_separator v = true)
    (foldl (λ acc kv, <[before "=" kv := before "=" (after "=" kv)]> acc)
           acc (List.filter (contains "=") kvs)).
Proof.
  revert acc. induction kvs as [|kv rest IH]; intros acc; [done|].
  intros [Hkv Hrest]%Forall_cons Hacc. simpl.
  destruct (contains "=" kv); simpl; [|by apply IH].
  apply IH; [done|].
  apply map_Forall_insert_2; [|done].
  split; apply no_separator_spec; split.
  - apply before_no_self.
  - by apply contains_before.
  - apply before_no_self.
  - by apply contains_before, contains_after.
Qed.

(** X13: whatever the feature string, no key and no value of the extracted
    mapping contains ["="] or ["|"]. *)
Theorem stanza_feats_entries_clean (im : bool) (w : stanza.Word)
    (m : gmap string string) (k v : string) :
  stanza_feats im w = Ok m →
  m !! k = Some v →
  no_separator k = true ∧ no_separator v = true.
Proof.
  rewrite stanza_feats_ok. intros [= <-]. unfold stanza_morph.
  destruct im; [|by rewrite lookup_empty].
  destruct (stanza.feats w) as [fs|]; [|by rewrite lookup_empty].
  destruct (truthy fs); [|by rewrite lookup_empty].
  intros Hkv. revert k v Hkv.
  apply (foldl_store_clean (split "|" fs) ∅).
  - apply split_pieces_no_sep.
  - apply map_Forall_empty.
Qed.

(** ** The further theorems at concrete inputs *)

Lemma tag_raises_only_http_witness :
  (HTTPException 503 "No tagging provider available"
   = HTTPException 400 "Empty text"
   ∧ blank (text ex_req) = true
   ∧ (tag "de_core_news_lg" (Some ex_spacy_raise) None ex_req).2 = [])
  ∨ (HTTPException 503 "No tagging provider available"
     = HTTPException 503 "No tagging provider available"
     ∧ blank (text ex_req) = false
     ∧ (spacy_attempt (Some ex_spacy_raise) (strip (text ex_req)) ex_req
        = None ∨
        ∃ e1, spacy_attempt (Some ex_spacy_raise) (strip (text ex_req))
                ex_req = Some (Raise e1))
     ∧ (stanza_attempt None (strip (text ex_req)) ex_req = None ∨
        ∃ e2, stanza_attempt None (strip (text ex_req)) ex_req
              = Some (Raise e2))).
Proof.
  apply (tag_raises_only_http "de_core_news_lg" (Some ex_spacy_raise) None
           ex_req).
  reflexivity.
Defined.

Lemma tag_depends_on_trimmed_text_and_flags_witness :
  tag "de_core_news_lg" (Some ex_spacy_ok) (Some ex_stanza_ok) ex_req
  = tag "de_core_news_lg" (Some ex_spacy_ok) (Some ex_stanza_ok)
      ex_req_padded.
Proof.
  apply (tag_depends_on_trimmed_text_and_flags "de_core_news_lg"
           (Some ex_spacy_ok) (Some ex_stanza_ok) ex_req ex_req_padded).
  - reflexivity.
  - reflexivity.
  - reflexivity.
Defined.

Lemma tag_calls_on_trimmed_text_witness :
  "Der  Hund bellt." = strip (text ex_req)
  ∧ truthy "Der  Hund bellt." = true
  ∧ starts_with_space "Der  Hund bellt." = false
  ∧ ends_with_space "Der  Hund bellt." = false
  ∧ ∃ pre suf, text ex_req = pre +:+ "Der  Hund bellt." +:+ suf
               ∧ blank pre = true ∧ blank suf = true.
Proof.
  apply (tag_calls_on_trimmed_text "de_core_news_lg" (Some ex_spacy_raise)
           (Some ex_stanza_ok) ex_req "Der  Hund bellt.").
  right. vm_compute. repeat constructor.
Defined.

Lemma tag_prints_attempt_failures_witness :
  Print "[ERR] spaCy failed: " (Exception "boom")
    ∈ (tag "de_core_news_lg" (Some ex_spacy_raise) (Some ex_stanza_ok)
         ex_req).2
  ↔ ("[ERR] spaCy failed: " = "[ERR] spaCy failed: "
     ∧ spacy_attempt (Some ex_spacy_raise) (strip (text ex_req)) ex_req
       = Some (Raise (Exception "boom")))
    ∨ ("[ERR] spaCy failed: " = "[ERR] Stanza failed: "
       ∧ (∀ sents, spacy_attempt (Some ex_spacy_raise) (strip (text ex_req))
                     ex_req ≠ Some (Ok sents))
       ∧ stanza_attempt (Some ex_stanza_ok) (strip (text ex_req)) ex_req
         = Some (Raise (Exception "boom"))).
Proof.
  apply (tag_prints_attempt_failures "de_core_news_lg" (Some ex_spacy_raise)
           (Some ex_stanza_ok) ex_req).
  reflexivity.
Defined.

Lemma spacy_tokens_verbatim_witness :
  Forall2 (λ sent s,
     Forall2 (λ t tok,
        out.text tok = spacy.text t
        ∧ out.pos tok = spacy.pos_ t
        ∧ (true = true → out.lemma tok = Some (spacy.lemma_ t))
        ∧ (true = true → ∀ d, spacy.morph_to_dict t = Ok d →
                              out.morph tok = d))
       (List.filter (λ t, negb (spacy.is_space t)) sent) (out.tokens s))
    (spacy.sents ex_spacy_doc)
    (map (spacy_sentence true true) (spacy.sents ex_spacy_doc)).
Proof.
  apply (spacy_tokens_verbatim ex_spacy_doc true true).
  vm_compute; reflexivity.
Defined.

Lemma stanza_feats_round_trip_witness :
  stanza_feats true
    (stanza.mkWord "Hund" "NOUN" "Hund"
       (Some (join_feats [("Case", "Nom"); ("Gender", "Masc");
                          ("Case", "Acc")])))
  = Ok (<["Case" := "Acc"]> (<["Gender" := "Masc"]>
          (<["Case" := "Nom"]> ∅))).
Proof.
  refine (proj1 (stanza_feats_round_trip
    (stanza.mkWord "Hund" "NOUN" "Hund"
       (Some (join_feats [("Case", "Nom"); ("Gender", "Masc");
                          ("Case", "Acc")])))
    [("Case", "Nom"); ("Gender", "Masc"); ("Case", "Acc")] _ _)).
  - repeat constructor.
  - reflexivity.
Defined.

Lemma stanza_feats_entries_clean_witness :
  no_separator "K" = true ∧ no_separator "a" = true.
Proof.
  apply (stanza_feats_entries_clean true ex_word_two_eq
           (stanza_morph true ex_word_two_eq) "K" "a").
  - vm_compute; reflexivity.
  - vm_compute; reflexivity.
Defined.
